(** * texteripy: the asynchronous Texterify client, shallow embedding

    A model of [src/texteripy/client.py].  Every [async] method becomes a
    computation in a small state and error monad [M]: the state records the
    messages written with [logger.error] and the HTTP requests handed to
    aiohttp; a Python exception is the [Raise] branch of [outcome].

    The network is a function [server] from the request that aiohttp builds
    to the response (or connection failure) it gets back; the file system
    read by [import_project] is a function [fs] from paths to the file's
    bytes.  Both are section variables, so every theorem holds for every
    server and every file system.

    The query string of a request is kept decoded: a list of (name, value)
    pairs, the view that [urllib.parse.urlencode] produces before its
    percent-encoding and that the server reads back after decoding it. *)

From Stdlib Require Import String Ascii List ZArith NArith Bool Lia.
From Stdlib Require Import Strings.Byte.
Import ListNotations.
Open Scope string_scope.

Set Warnings "-register-all".

(** ** JSON values, Python dictionaries and exceptions *)

Inductive json : Type :=
| JNull
| JBool (b : bool)
| JInt (z : Z)
| JStr (s : string)
| JList (l : list json)
| JObj (kvs : list (string * json)).

(** A Python [dict] with string keys, in insertion order. *)
Definition dict := list (string * json).

Fixpoint dict_lookup (k : string) (d : dict) : option json :=
  match d with
  | [] => None
  | (k', v) :: d' => if String.eqb k k' then Some v else dict_lookup k d'
  end.

(** The exceptions the client raises or lets through. *)
Inductive exn : Type :=
| StatusError (status : Z)   (* raise Exception(f"Invalid response status received: {status}\n") *)
| TypeError                  (* yarl query variable of a bad type; subscripting a non-dict *)
| KeyError (k : string)      (* dict subscript with a missing key *)
| AttributeError             (* [.get] on something that is not a dict *)
| ClientError (reason : string)  (* aiohttp connection failure *)
| ContentTypeError           (* [response.json()] on a non-JSON content type *)
| JSONDecodeError            (* [response.json()] on a body that is not JSON *)
| OSError (path : string).   (* [open(file_path, "rb")] failure *)

(** The Python class of each exception, i.e. what an [except] clause can catch it by. *)
Definition exn_class (e : exn) : string :=
  match e with
  | StatusError _ => "Exception"
  | TypeError => "TypeError"
  | KeyError _ => "KeyError"
  | AttributeError => "AttributeError"
  | ClientError _ => "ClientError"
  | ContentTypeError => "ContentTypeError"
  | JSONDecodeError => "JSONDecodeError"
  | OSError _ => "OSError"
  end.

Inductive outcome (A : Type) : Type :=
| Ok (a : A)
| Raise (e : exn).
Arguments Ok {A} a.
Arguments Raise {A} e.

(** Python truthiness of a JSON value. *)
Definition truthy (v : json) : bool :=
  match v with
  | JNull => false
  | JBool b => b
  | JInt z => negb (Z.eqb z 0)
  | JStr s => negb (String.eqb s "")
  | JList l => match l with [] => false | _ => true end
  | JObj kvs => match kvs with [] => false | _ => true end
  end.

(** ** [str] of a Python value *)

Fixpoint decimal_digits (fuel : nat) (n : N) (acc : string) : string :=
  match fuel with
  | O => acc
  | S f =>
      let acc' := String (ascii_of_N (48 + N.modulo n 10)) acc in
      if N.eqb (N.div n 10) 0 then acc' else decimal_digits f (N.div n 10) acc'
  end.

Definition N_to_decimal (n : N) : string := decimal_digits (N.size_nat n + 1) n "".

(** [str(z)] for a Python [int]. *)
Definition py_int_str (z : Z) : string :=
  match z with
  | Z.neg p => "-" ++ N_to_decimal (Npos p)
  | _ => N_to_decimal (Z.to_N z)
  end.

(** [repr] of a value.  Escapes inside quoted strings are not modelled: a
    list or dict query value is rejected by yarl before the request is
    sent (see [yarl_query_var]), so its rendering never reaches a server. *)
Fixpoint py_repr (v : json) : string :=
  match v with
  | JNull => "None"
  | JBool b => if b then "True" else "False"
  | JInt z => py_int_str z
  | JStr s => "'" ++ s ++ "'"
  | JList l =>
      "[" ++ (fix items (l : list json) : string :=
                match l with
                | [] => ""
                | [x] => py_repr x
                | x :: r => py_repr x ++ ", " ++ items r
                end) l ++ "]"
  | JObj kvs =>
      "{" ++ (fix items (kvs : list (string * json)) : string :=
                match kvs with
                | [] => ""
                | [(k, x)] => "'" ++ k ++ "': " ++ py_repr x
                | (k, x) :: r => "'" ++ k ++ "': " ++ py_repr x ++ ", " ++ items r
                end) kvs ++ "}"
  end.

Definition py_str (v : json) : string :=
  match v with
  | JStr s => s
  | _ => py_repr v
  end.

(** [str.lower] on ASCII text. *)
Definition ascii_lower (c : ascii) : ascii :=
  let n := nat_of_ascii c in
  if (65 <=? n)%nat && (n <=? 90)%nat then ascii_of_nat (n + 32) else c.

Fixpoint str_lower (s : string) : string :=
  match s with
  | EmptyString => EmptyString
  | String c r => String (ascii_lower c) (str_lower r)
  end.

(** ** The client object *)

Record Texterify : Type := mk_texterify {
  auth_email : string;
  auth_secret : string
}.

Definition api_base_url : string := "https://app.texterify.com/api" ++ "/" ++ "v1" ++ "/".

Definition request_headers (self : Texterify) : list (string * string) :=
  [("Accept", "application/json"); ("Content-Type", "application/json");
   ("Auth-Email", auth_email self); ("Auth-Secret", auth_secret self)].

(** The request aiohttp sends.  [rq_body = Some j] is the body text
    [json.dumps(params)] of the JSON document [j]; a GET request has no
    body. *)
Record http_request : Type := mk_request {
  rq_method : string;
  rq_url : string;
  rq_query : list (string * string);
  rq_headers : list (string * string);
  rq_body : option json
}.

(** The response aiohttp hands back.  [rs_body] is the body parsed as JSON,
    [None] when it is not JSON text; [rs_handle] tells response objects apart. *)
Record http_response : Type := mk_response {
  rs_status : Z;
  rs_json_content_type : bool;
  rs_body : option json;
  rs_handle : nat
}.

Inductive transport : Type :=
| Resp (r : http_response)
| NetFail (reason : string).

(** What [_make_request] returns: a decoded JSON body, or the response object itself. *)
Inductive result : Type :=
| RJson (j : json)
| RRaw (r : http_response).

(** [await response.json()]: aiohttp checks the content type, then decodes. *)
Definition response_json (r : http_response) : outcome json :=
  if rs_json_content_type r then
    match rs_body r with
    | Some j => Ok j
    | None => Raise JSONDecodeError
    end
  else Raise ContentTypeError.

(** ** Building the request: lines 54-70 of [_make_request], then aiohttp *)

(** Line 57: [str(v).lower() if isinstance(v, bool) else v]. *)
Definition fold_value (v : json) : json :=
  match v with
  | JBool _ => JStr (str_lower (py_str v))
  | _ => v
  end.

(** Line 58: [urllib.parse.urlencode(params)] renders each value with [str]. *)
Definition urlencode (params : dict) : list (string * string) :=
  map (fun '(k, v) => (k, py_str v)) params.

(** yarl's [URL._query_var]: a [str] stays as it is, an [int] (but not a
    [bool]) is rendered with [str]; any other type is a [TypeError]. *)
Definition yarl_query_var (v : json) : outcome string :=
  match v with
  | JStr s => Ok s
  | JInt z => Ok (py_int_str z)
  | _ => Raise TypeError
  end.

Fixpoint yarl_query (params : dict) : outcome (list (string * string)) :=
  match params with
  | [] => Ok []
  | (k, v) :: rest =>
      match yarl_query_var v with
      | Raise e => Raise e
      | Ok s =>
          match yarl_query rest with
          | Raise e => Raise e
          | Ok q => Ok ((k, s) :: q)
          end
      end
  end.

(** aiohttp's [ClientRequest]: [if params: url = url.extend_query(params)];
    the query already in the URL is kept and the [params] pairs are added
    after it. *)
Definition aiohttp_extend_query (query : list (string * string)) (params : option dict)
  : outcome (list (string * string)) :=
  match params with
  | Some ((_ :: _) as d) =>
      match yarl_query d with
      | Ok q => Ok (query ++ q)%list
      | Raise e => Raise e
      end
  | _ => Ok query
  end.

(** Python truthiness of [params] ([None] and [{}] are false). *)
Definition params_truthy (params : option dict) : bool :=
  match params with
  | Some (_ :: _) => true
  | _ => false
  end.

(** [json.dumps(params)]: the document that is serialised. *)
Definition dumps_doc (params : option dict) : json :=
  match params with
  | None => JNull
  | Some d => JObj d
  end.

Section Client.

Variable self : Texterify.

(** Lines 54-70, and aiohttp turning [full_url] and [options] into a request. *)
Definition build_request (url method : string) (params : option dict) : outcome http_request :=
  let full_url := api_base_url ++ url in
  let '(query, params) :=
    if String.eqb method "GET" && params_truthy params then
      let converted := map (fun '(k, v) => (k, fold_value v))
                           (match params with Some d => d | None => [] end) in
      (urlencode converted, Some converted)
    else ([], params) in
  if negb (String.eqb method "GET") then
    Ok (mk_request method full_url query (request_headers self) (Some (dumps_doc params)))
  else
    match aiohttp_extend_query query params with
    | Ok q => Ok (mk_request method full_url q (request_headers self) None)
    | Raise e => Raise e
    end.

End Client.

(** ** The effect monad: the log and the requests sent *)

Inductive log_entry : Type :=
| LogNotFound                  (* "The resource could not be found. ..." *)
| LogInvalidStatus (status : Z) (* f"Invalid response status received: {status}" *)
| LogError (e : exn)           (* logger.error("Error:", error) *)
| LogNoDefaultLanguage.        (* "You need to define a default language ..." *)

Record world : Type := mk_world {
  w_log : list log_entry;
  w_sent : list http_request
}.

Definition M (A : Type) : Type := world -> outcome A * world.

Definition ret {A} (a : A) : M A := fun w => (Ok a, w).

Definition bind {A B} (m : M A) (f : A -> M B) : M B :=
  fun w =>
    match m w with
    | (Ok a, w') => f a w'
    | (Raise e, w') => (Raise e, w')
    end.

Definition raise {A} (e : exn) : M A := fun w => (Raise e, w).

Definition lift {A} (o : outcome A) : M A := fun w => (o, w).

Definition log_world (l : log_entry) (w : world) : world :=
  mk_world (w_log w ++ [l])%list (w_sent w).

Definition log (l : log_entry) : M unit := fun w => (Ok tt, log_world l w).

Notation "x <- m ;; k" := (bind m (fun x => k))
  (at level 61, m at next level, right associativity).
Notation "m ;; k" := (bind m (fun _ => k))
  (at level 61, right associativity).

(** [try: ... except Exception as error: logger.error("Error:", error); raise error]. *)
Definition try_log_reraise {A} (m : M A) : M A :=
  fun w =>
    match m w with
    | (Raise e, w') => (Raise e, log_world (LogError e) w')
    | r => r
    end.

Section Session.

Variable server : http_request -> transport.
Variable self : Texterify.

(** [session.request(method, full_url, **options)]: the request goes out,
    the server answers or the connection fails. *)
Definition send (rq : http_request) : M http_response :=
  fun w =>
    let w' := mk_world (w_log w) (w_sent w ++ [rq])%list in
    match server rq with
    | Resp r => (Ok r, w')
    | NetFail reason => (Raise (ClientError reason), w')
    end.

(** [Texterify._make_request]. *)
Definition _make_request (url method : string) (params : option dict)
           (is_file_download : bool) : M result :=
  try_log_reraise (
    rq <- lift (build_request self url method params) ;;
    response <- send rq ;;
    (if negb (Z.eqb (rs_status response) 200) && negb (Z.eqb (rs_status response) 400) then
       (if Z.eqb (rs_status response) 404 then log LogNotFound
        else log (LogInvalidStatus (rs_status response))) ;;
       raise (StatusError (rs_status response))
     else ret tt) ;;
    if negb is_file_download then
      j <- lift (response_json response) ;; ret (RJson j)
    else ret (RRaw response)).

Definition _get_request (url : string) (query_params : option dict)
           (is_file_download : bool) : M result :=
  _make_request url "GET" query_params is_file_download.

Definition _post_request (url : string) (body : option dict) : M result :=
  _make_request url "POST" body false.

Definition _put_request (url : string) (body : option dict) : M result :=
  _make_request url "PUT" body false.

Definition _delete_request (url : string) (body : option dict) : M result :=
  _make_request url "DELETE" body false.

End Session.

(** ** Python access to a response *)

(** [value.get(k)]: a dict answers with the value or [None]; anything else
    (a list, a string, an aiohttp response object) has no [.get]. *)
Definition py_get (r : result) (k : string) : outcome json :=
  match r with
  | RJson (JObj kvs) =>
      Ok (match dict_lookup k kvs with Some v => v | None => JNull end)
  | _ => Raise AttributeError
  end.

(** [value[k]] with a string key. *)
Definition py_getitem (v : json) (k : string) : outcome json :=
  match v with
  | JObj kvs =>
      match dict_lookup k kvs with
      | Some x => Ok x
      | None => Raise (KeyError k)
      end
  | _ => Raise TypeError
  end.

Definition result_getitem (r : result) (k : string) : outcome json :=
  match r with
  | RJson v => py_getitem v k
  | RRaw _ => Raise TypeError
  end.

(** Truthiness of an [Optional[str]] argument. *)
Definition opt_str_truthy (o : option string) : bool :=
  match o with
  | Some s => negb (String.eqb s "")
  | None => false
  end.

(** A keyword argument with a default: [None] here means "not supplied". *)
Definition arg (supplied : option json) (default : json) : json :=
  match supplied with
  | Some v => v
  | None => default
  end.

(** ** Base64, as [base64.b64encode(file_bytes).decode()] *)

Definition b64_alphabet : string :=
  "ABCDEFGHIJKLMNOPQRSTUVWXYZabcdefghijklmnopqrstuvwxyz0123456789+/".

Definition b64_char (n : N) : ascii :=
  match String.get (N.to_nat (N.land n 63)) b64_alphabet with
  | Some c => c
  | None => "="%char
  end.

Fixpoint b64encode (bs : list byte) : string :=
  match bs with
  | a :: b :: c :: rest =>
      let n := N.lor (N.shiftl (Byte.to_N a) 16)
                     (N.lor (N.shiftl (Byte.to_N b) 8) (Byte.to_N c)) in
      String (b64_char (N.shiftr n 18)) (String (b64_char (N.shiftr n 12))
        (String (b64_char (N.shiftr n 6)) (String (b64_char n) (b64encode rest))))
  | [a; b] =>
      let n := N.lor (N.shiftl (Byte.to_N a) 16) (N.shiftl (Byte.to_N b) 8) in
      String (b64_char (N.shiftr n 18)) (String (b64_char (N.shiftr n 12))
        (String (b64_char (N.shiftr n 6)) "="))
  | [a] =>
      let n := N.shiftl (Byte.to_N a) 16 in
      String (b64_char (N.shiftr n 18)) (String (b64_char (N.shiftr n 12)) "==")
  | [] => ""
  end.

(** ** The operations of [Texterify] *)

Section Operations.

Variable server : http_request -> transport.
Variable fs : string -> option (list byte).
Variable self : Texterify.

Definition get_keys (project_id : string)
           (page per_page case_sensitive only_html_enabled only_untranslated
            only_with_overwrites : option json) : M result :=
  _get_request server self ("projects/" ++ project_id ++ "/keys")
    (Some [("page", arg page (JInt 1));
           ("per_page", arg per_page (JInt 10));
           ("case_sensitive", arg case_sensitive (JBool false));
           ("only_html_enabled", arg only_html_enabled (JBool false));
           ("only_untranslated", arg only_untranslated (JBool false));
           ("only_with_overwrites", arg only_with_overwrites (JBool false))])
    false.

Definition create_translation (project_id : string) (key_id : json) (content : string)
           (language_id : option string) : M result :=
  _post_request server self ("projects/" ++ project_id ++ "/translations")
    (Some [("language_id", match language_id with Some l => JStr l | None => JNull end);
           ("key_id", key_id);
           ("translation", JObj [("content", JStr content)])]).

Definition create_key (project_id name description : string)
           (default_language_translation : option string) : M result :=
  new_key <- _post_request server self ("projects/" ++ project_id ++ "/keys")
               (Some [("name", JStr name); ("description", JStr description)]) ;;
  error <- lift (py_get new_key "error") ;;
  go <- (if negb (truthy error) then
           data <- lift (py_get new_key "data") ;;
           ret (truthy data && opt_str_truthy default_language_translation)
         else ret false) ;;
  (if go then
     data <- lift (result_getitem new_key "data") ;;
     attributes <- lift (py_getitem data "attributes") ;;
     key_id <- lift (py_getitem attributes "id") ;;
     new_translation_response <-
       create_translation project_id key_id
         (match default_language_translation with Some s => s | None => "" end) None ;;
     err <- lift (py_get new_translation_response "error") ;;
     (match err with
      | JStr s => if String.eqb s "NO_DEFAULT_LANGUAGE_SPECIFIED"
                  then log LogNoDefaultLanguage else ret tt
      | _ => ret tt
      end)
   else ret tt) ;;
  ret new_key.

Definition update_key (project_id key_id name description : string) : M result :=
  _put_request server self ("projects/" ++ project_id ++ "/keys/" ++ key_id)
    (Some [("name", JStr name); ("description", JStr description)]).

Definition delete_keys (project_id : string) (keys : json) : M result :=
  _delete_request server self ("projects/" ++ project_id ++ "/keys") (Some [("keys", keys)]).

Definition get_projects : M result :=
  _get_request server self "projects" None false.

Definition get_project (project_id : string) : M result :=
  _get_request server self ("projects/" ++ project_id) None false.

Definition create_project (name description : string) : M result :=
  _post_request server self "projects"
    (Some [("project", JObj [("name", JStr name); ("description", JStr description)])]).

Definition update_project (name description : string) : M result :=
  _put_request server self "projects"
    (Some [("project", JObj [("name", JStr name); ("description", JStr description)])]).

Definition export_project (project_id export_config_id : string) (options : dict) : M result :=
  _get_request server self ("projects/" ++ project_id ++ "/exports/" ++ export_config_id) (Some options) true.

(** [with open(file_path, "rb") as file: file_bytes = file.read()]. *)
Definition read_file (file_path : string) : M (list byte) :=
  fun w =>
    match fs file_path with
    | Some bs => (Ok bs, w)
    | None => (Raise (OSError file_path), w)
    end.

Definition import_project (project_id language_id file_path : string) : M result :=
  file_bytes <- read_file file_path ;;
  let file_base64 := b64encode file_bytes in
  _post_request server self ("projects/" ++ project_id ++ "/import")
    (Some [("language_id", JStr language_id); ("file", JStr file_base64)]).

Definition get_languages (project_id : string) (page per_page search : option json) : M result :=
  _get_request server self ("projects/" ++ project_id ++ "/languages")
    (Some [("page", arg page (JInt 1));
           ("per_page", arg per_page (JInt 10));
           ("search", let s := arg search JNull in if truthy s then s else JStr "")])
    false.

End Operations.

(** * Properties *)

(** ** How one call of [_make_request] runs *)

(** The message logged by lines 72-76 for a rejected status. *)
Definition status_log (status : Z) : log_entry :=
  if Z.eqb status 404 then LogNotFound else LogInvalidStatus status.

Definition sent_world (rq : http_request) (w : world) : world :=
  mk_world (w_log w) (w_sent w ++ [rq])%list.

Lemma make_request_run server self url method params is_file_download w :
  _make_request server self url method params is_file_download w =
  match build_request self url method params with
  | Raise e => (Raise e, log_world (LogError e) w)
  | Ok rq =>
      match server rq with
      | NetFail reason =>
          (Raise (ClientError reason), log_world (LogError (ClientError reason)) (sent_world rq w))
      | Resp r =>
          if negb (Z.eqb (rs_status r) 200) && negb (Z.eqb (rs_status r) 400) then
            (Raise (StatusError (rs_status r)),
             log_world (LogError (StatusError (rs_status r)))
               (log_world (status_log (rs_status r)) (sent_world rq w)))
          else if is_file_download then (Ok (RRaw r), sent_world rq w)
          else
            match response_json r with
            | Ok j => (Ok (RJson j), sent_world rq w)
            | Raise e => (Raise e, log_world (LogError e) (sent_world rq w))
            end
      end
  end.
Proof.
  unfold _make_request, try_log_reraise, bind, lift, send, ret, raise, log, status_log.
  destruct (build_request self url method params) as [rq|e]; [|reflexivity].
  destruct (server rq) as [r|reason]; [|reflexivity].
  destruct (negb (rs_status r =? 200)%Z && negb (rs_status r =? 400)%Z).
  - destruct (rs_status r =? 404)%Z; reflexivity.
  - destruct is_file_download; simpl; [reflexivity|].
    destruct (response_json r); reflexivity.
Qed.

(** ** C2: status classification *)

(** C2: once the request is sent and answered, a status of 200 or 400 hands
    the decoded body back unchanged as a normal result (a 400 body carrying
    an [error] field included); any other status raises the generic
    [Exception] carrying the status code, whatever the status, after
    logging a message that is the only thing telling 404 apart from other
    statuses. *)
Theorem make_request_status_classification server self url method params rq r w :
  build_request self url method params = Ok rq ->
  server rq = Resp r ->
  ((rs_status r = 200 \/ rs_status r = 400)%Z ->
   forall j, response_json r = Ok j ->
   _make_request server self url method params false w = (Ok (RJson j), sent_world rq w)) /\
  ((rs_status r <> 200 /\ rs_status r <> 400)%Z ->
   forall is_file_download,
   _make_request server self url method params is_file_download w =
     (Raise (StatusError (rs_status r)),
      mk_world (w_log w ++ [status_log (rs_status r); LogError (StatusError (rs_status r))])
               (w_sent w ++ [rq])) /\
   exn_class (StatusError (rs_status r)) = "Exception").
Proof.
  intros Hb Hs; split.
  - intros Hst j Hj. rewrite make_request_run, Hb, Hs, Hj.
    destruct Hst as [-> | ->]; reflexivity.
  - intros [H200 H400] ifd. rewrite make_request_run, Hb, Hs.
    apply Z.eqb_neq in H200; apply Z.eqb_neq in H400. rewrite H200, H400. simpl.
    unfold log_world, sent_world; simpl. rewrite <- app_assoc. split; reflexivity.
Qed.

Definition witness_client : Texterify := mk_texterify "user@example.com" "secret".

Definition status_server (status : Z) (body : option json) (rq : http_request) : transport :=
  Resp (mk_response status true body 0).

Lemma make_request_status_classification_witness :
  let rq := mk_request "POST" (api_base_url ++ "projects/p/keys") []
              (request_headers witness_client) (Some JNull) in
  _make_request (status_server 400 (Some (JObj [("error", JStr "SOME_CODE")]))) witness_client
      "projects/p/keys" "POST" None false (mk_world [] [])
    = (Ok (RJson (JObj [("error", JStr "SOME_CODE")])), sent_world rq (mk_world [] [])) /\
  _make_request (status_server 404 None) witness_client "projects/p/keys" "POST" None false
      (mk_world [] [])
    = (Raise (StatusError 404),
       mk_world ([] ++ [LogNotFound; LogError (StatusError 404)]) ([] ++ [rq])) /\
  exn_class (StatusError 404) = exn_class (StatusError 500).
Proof.
  intros rq. split; [|split].
  - apply (make_request_status_classification
             (status_server 400 (Some (JObj [("error", JStr "SOME_CODE")])))
             witness_client "projects/p/keys" "POST" None rq
             (mk_response 400 true (Some (JObj [("error", JStr "SOME_CODE")])) 0));
      [reflexivity | reflexivity | right; reflexivity | reflexivity].
  - apply (make_request_status_classification (status_server 404 None) witness_client
             "projects/p/keys" "POST" None rq (mk_response 404 true None 0));
      [reflexivity | reflexivity | split; discriminate].
  - reflexivity.
Defined.

(** ** C4: how failures are logged and propagated *)

(** C4, counterexample: a status-500 answer is one failure but leaves two
    log entries (the status diagnostic, then the catch-all "Error:" line),
    so "every failure is logged exactly once" does not hold. *)
Lemma make_request_status_failure_logged_twice :
  _make_request (status_server 500 None) witness_client "projects" "POST" None false
      (mk_world [] [])
  = (Raise (StatusError 500),
     mk_world [LogInvalidStatus 500; LogError (StatusError 500)]
       [mk_request "POST" (api_base_url ++ "projects") [] (request_headers witness_client)
          (Some JNull)]) /\
  ~ (forall server self url method params is_file_download w e w',
       _make_request server self url method params is_file_download w = (Raise e, w') ->
       length (w_log w') = S (length (w_log w))).
Proof.
  split; [reflexivity|].
  intros H.
  specialize (H (status_server 500 None) witness_client "projects" "POST" None false
                (mk_world [] []) (StatusError 500)
                (mk_world [LogInvalidStatus 500; LogError (StatusError 500)]
                   [mk_request "POST" (api_base_url ++ "projects") []
                      (request_headers witness_client) (Some JNull)]) eq_refl).
  discriminate H.
Qed.

(** C4, as the code does it.  Each failure inside [_make_request] makes
    it raise, and the exception it raises is the one raised inside, re-raised
    as it is, after exactly the one request was sent (none when building
    it failed), with no retry: a failure while building the request, a
    connection failure and a decoding failure are each logged once, by the
    catch-all [except]; a status other than 200 and 400 is logged twice,
    first with the status diagnostic, then by the catch-all.  Conversely,
    every exception leaving [_make_request] is one of these. *)
Theorem make_request_failure_logging server self url method params is_file_download w :
  (forall e, build_request self url method params = Raise e ->
     _make_request server self url method params is_file_download w
     = (Raise e, log_world (LogError e) w)) /\
  (forall rq reason, build_request self url method params = Ok rq -> server rq = NetFail reason ->
     _make_request server self url method params is_file_download w
     = (Raise (ClientError reason), log_world (LogError (ClientError reason)) (sent_world rq w))) /\
  (forall rq r, build_request self url method params = Ok rq -> server rq = Resp r ->
     rs_status r <> 200%Z -> rs_status r <> 400%Z ->
     _make_request server self url method params is_file_download w
     = (Raise (StatusError (rs_status r)),
        log_world (LogError (StatusError (rs_status r)))
          (log_world (status_log (rs_status r)) (sent_world rq w)))) /\
  (forall rq r e, build_request self url method params = Ok rq -> server rq = Resp r ->
     (rs_status r = 200 \/ rs_status r = 400)%Z -> is_file_download = false ->
     response_json r = Raise e ->
     _make_request server self url method params is_file_download w
     = (Raise e, log_world (LogError e) (sent_world rq w))) /\
  (forall e w',
     _make_request server self url method params is_file_download w = (Raise e, w') ->
     (build_request self url method params = Raise e /\ w' = log_world (LogError e) w) \/
     (exists rq, build_request self url method params = Ok rq /\
        ((exists reason, server rq = NetFail reason /\ e = ClientError reason /\
                         w' = log_world (LogError e) (sent_world rq w)) \/
         (exists r, server rq = Resp r /\ rs_status r <> 200%Z /\ rs_status r <> 400%Z /\
                    e = StatusError (rs_status r) /\
                    w' = log_world (LogError e) (log_world (status_log (rs_status r)) (sent_world rq w))) \/
         (exists r, server rq = Resp r /\ (rs_status r = 200 \/ rs_status r = 400)%Z /\
                    is_file_download = false /\ response_json r = Raise e /\
                    w' = log_world (LogError e) (sent_world rq w))))).
Proof.
  split; [|split; [|split; [|split]]].
  - intros e Hb. rewrite make_request_run, Hb. reflexivity.
  - intros rq reason Hb Hs. rewrite make_request_run, Hb, Hs. reflexivity.
  - intros rq r Hb Hs H200 H400. rewrite make_request_run, Hb, Hs.
    apply Z.eqb_neq in H200; apply Z.eqb_neq in H400. rewrite H200, H400. reflexivity.
  - intros rq r e Hb Hs Hst -> Hj. rewrite make_request_run, Hb, Hs, Hj.
    destruct Hst as [-> | ->]; reflexivity.
  - intros e w'. rewrite make_request_run.
    destruct (build_request self url method params) as [rq|e0] eqn:Hb.
    2:{ intros H; injection H as <- <-; left; auto. }
    intros H; right; exists rq; split; [reflexivity|].
    destruct (server rq) as [r|reason] eqn:Hs.
    2:{ injection H as <- <-; left; eauto. }
    destruct (Z.eqb (rs_status r) 200) eqn:H200; destruct (Z.eqb (rs_status r) 400) eqn:H400;
      simpl in H.
    + apply Z.eqb_eq in H200; apply Z.eqb_eq in H400; lia.
    + apply Z.eqb_eq in H200.
      destruct is_file_download; [discriminate H|].
      destruct (response_json r) eqn:Hj; [discriminate H|].
      injection H as <- <-. right; right; exists r; auto.
    + apply Z.eqb_eq in H400.
      destruct is_file_download; [discriminate H|].
      destruct (response_json r) eqn:Hj; [discriminate H|].
      injection H as <- <-. right; right; exists r; auto.
    + apply Z.eqb_neq in H200; apply Z.eqb_neq in H400.
      injection H as <- <-. right; left; exists r; auto.
Qed.

(** A server whose connection always fails. *)
Definition down_server (rq : http_request) : transport := NetFail "connection refused".

Lemma make_request_failure_logging_witness :
  let post := mk_request "POST" (api_base_url ++ "projects") [] (request_headers witness_client)
                (Some JNull) in
  _make_request (status_server 200 None) witness_client "projects" "GET"
      (Some [("page", JNull)]) false (mk_world [] [])
    = (Raise TypeError, log_world (LogError TypeError) (mk_world [] [])) /\
  _make_request down_server witness_client "projects" "POST" None false (mk_world [] [])
    = (Raise (ClientError "connection refused"),
       log_world (LogError (ClientError "connection refused")) (sent_world post (mk_world [] []))) /\
  _make_request (status_server 500 None) witness_client "projects" "POST" None false
      (mk_world [] [])
    = (Raise (StatusError 500),
       log_world (LogError (StatusError 500))
         (log_world (status_log 500) (sent_world post (mk_world [] [])))) /\
  _make_request (status_server 200 None) witness_client "projects" "POST" None false
      (mk_world [] [])
    = (Raise JSONDecodeError, log_world (LogError JSONDecodeError) (sent_world post (mk_world [] []))).
Proof.
  intros post. split; [|split; [|split]].
  - apply (proj1 (make_request_failure_logging (status_server 200 None) witness_client "projects"
                    "GET" (Some [("page", JNull)]) false (mk_world [] []))).
    reflexivity.
  - apply (proj1 (proj2 (make_request_failure_logging down_server witness_client "projects"
                           "POST" None false (mk_world [] []))) post);
      reflexivity.
  - apply (proj1 (proj2 (proj2 (make_request_failure_logging (status_server 500 None)
                                  witness_client "projects" "POST" None false (mk_world [] []))))
             post (mk_response 500 true None 0));
      first [reflexivity | discriminate].
  - apply (proj1 (proj2 (proj2 (proj2 (make_request_failure_logging (status_server 200 None)
                                         witness_client "projects" "POST" None false
                                         (mk_world [] [])))))
             post (mk_response 200 true None 0));
      first [reflexivity | left; reflexivity].
Defined.

(** ** The query string of a GET request *)

(** The rendering the spec asks for: a boolean as ["true"] / ["false"],
    any other value by its [str] form. *)
Definition query_render (v : json) : string :=
  match v with
  | JBool b => if b then "true" else "false"
  | _ => py_str v
  end.

(** Line 57 applied to a whole parameter mapping. *)
Definition fold_params (d : dict) : dict :=
  map (fun '(k, v) => (k, fold_value v)) d.

Lemma fold_value_render v : py_str (fold_value v) = query_render v.
Proof. destruct v as [| [] | | | |]; reflexivity. Qed.

Lemma urlencode_fold_params d :
  urlencode (fold_params d) = map (fun '(k, v) => (k, query_render v)) d.
Proof.
  induction d as [|[k v] d IH]; [reflexivity|].
  simpl. rewrite fold_value_render, IH. reflexivity.
Qed.

Lemma yarl_query_urlencode d q : yarl_query d = Ok q -> q = urlencode d.
Proof.
  revert q; induction d as [|[k v] d IH]; intros q H; simpl in H.
  - injection H as <-; reflexivity.
  - destruct v; simpl in H; try discriminate H;
      destruct (yarl_query d) as [q'|e] eqn:Hd; try discriminate H;
      injection H as <-; simpl; rewrite (IH q' eq_refl); reflexivity.
Qed.

(** The query of a GET request: the converted pairs folded into the URL
    by line 58, followed by the same pairs added again by aiohttp from
    [options["params"]] (line 67). *)
Lemma build_get_query self url d rq :
  build_request self url "GET" (Some d) = Ok rq ->
  rq_query rq = (urlencode (fold_params d) ++ urlencode (fold_params d))%list /\
  rq_method rq = "GET" /\ rq_url rq = api_base_url ++ url /\ rq_body rq = None.
Proof.
  destruct d as [|p d'].
  - change (build_request self url "GET" (Some []))
      with (Ok (mk_request "GET" (api_base_url ++ url) [] (request_headers self) None)).
    intros H; injection H as <-. repeat split.
  - change (build_request self url "GET" (Some (p :: d')))
      with (match match yarl_query (fold_params (p :: d')) with
                  | Ok q => Ok (urlencode (fold_params (p :: d')) ++ q)%list
                  | Raise e => Raise e
                  end with
            | Ok q => Ok (mk_request "GET" (api_base_url ++ url) q (request_headers self) None)
            | Raise e => Raise e
            end).
    destruct (yarl_query (fold_params (p :: d'))) as [q|e] eqn:Hy; intros H; [|discriminate H].
    injection H as <-. apply yarl_query_urlencode in Hy. subst q. repeat split.
Qed.

(** Every pair in the query of a GET request renders a parameter, and
    every parameter is rendered there. *)
Lemma get_query_render_iff self url d rq :
  build_request self url "GET" (Some d) = Ok rq ->
  forall k s, In (k, s) (rq_query rq) <-> exists v, In (k, v) d /\ s = query_render v.
Proof.
  intros H k s. destruct (build_get_query self url d rq H) as [Hq _].
  rewrite Hq, urlencode_fold_params, in_app_iff, in_map_iff. split.
  - intros [[[k' v] [Heq Hin]] | [[k' v] [Heq Hin]]]; injection Heq as -> <-; eauto.
  - intros [v [Hin ->]]. left. exists (k, v); auto.
Qed.

(** ** C3: GET parameters end up twice in the query *)

(** C3 (the code double-encodes): for a GET request the parameters folded
    into the URL at line 58 are passed again as [options["params"]] at line
    67, and aiohttp appends them to the query already in the URL, so the
    final query string is the encoded parameters twice over. *)
Theorem get_query_params_encoded_twice self url d rq :
  build_request self url "GET" (Some d) = Ok rq ->
  rq_query rq = (urlencode (fold_params d) ++ urlencode (fold_params d))%list.
Proof. intros H. apply (build_get_query self url d rq H). Qed.

(** [get_keys] with every argument left to its default, as a parameter mapping. *)
Definition get_keys_default_params : dict :=
  [("page", JInt 1); ("per_page", JInt 10); ("case_sensitive", JBool false);
   ("only_html_enabled", JBool false); ("only_untranslated", JBool false);
   ("only_with_overwrites", JBool false)].

(** The request aiohttp builds for [get_keys] with every argument left to its default. *)
Definition get_keys_default_request : http_request :=
  mk_request "GET" (api_base_url ++ "projects/p/keys")
    (urlencode (fold_params get_keys_default_params) ++
     urlencode (fold_params get_keys_default_params))%list
    (request_headers witness_client) None.

Lemma get_query_params_encoded_twice_witness :
  build_request witness_client "projects/p/keys" "GET" (Some get_keys_default_params)
    = Ok get_keys_default_request /\
  rq_query get_keys_default_request
    = [("page", "1"); ("per_page", "10"); ("case_sensitive", "false");
       ("only_html_enabled", "false"); ("only_untranslated", "false");
       ("only_with_overwrites", "false");
       ("page", "1"); ("per_page", "10"); ("case_sensitive", "false");
       ("only_html_enabled", "false"); ("only_untranslated", "false");
       ("only_with_overwrites", "false")].
Proof.
  split; [reflexivity|].
  rewrite (get_query_params_encoded_twice witness_client "projects/p/keys"
             get_keys_default_params get_keys_default_request eq_refl).
  reflexivity.
Defined.

(** ** C9: booleans in a GET query *)

(** C9: every pair in the query of a GET request comes from a parameter,
    with a boolean rendered as the lowercase ["true"] / ["false"] and any
    other value by its [str] form, and every parameter is rendered so. *)
Theorem get_query_booleans_lowercase self url d rq :
  build_request self url "GET" (Some d) = Ok rq ->
  forall k s, In (k, s) (rq_query rq) <-> exists v, In (k, v) d /\ s = query_render v.
Proof.
  intros H k s. destruct (build_get_query self url d rq H) as [Hq _].
  rewrite Hq, urlencode_fold_params, in_app_iff.
  assert (Hm : In (k, s) (map (fun '(k0, v) => (k0, query_render v)) d) <->
               exists v, In (k, v) d /\ s = query_render v).
  { rewrite in_map_iff. split.
    - intros [[k' v] [Heq Hin]]. injection Heq as -> <-. eauto.
    - intros [v [Hin ->]]. exists (k, v); auto. }
  rewrite Hm. tauto.
Qed.

Lemma get_query_booleans_lowercase_witness :
  In ("case_sensitive", "false") (rq_query get_keys_default_request) /\
  ~ In ("case_sensitive", "False") (rq_query get_keys_default_request).
Proof.
  pose proof (get_query_booleans_lowercase witness_client "projects/p/keys"
                get_keys_default_params get_keys_default_request eq_refl) as H.
  split.
  - apply (proj2 (H "case_sensitive" "false")). exists (JBool false). split; [|reflexivity].
    simpl; auto.
  - intros Hin. destruct (proj1 (H "case_sensitive" "False") Hin) as [v [Hv Heq]].
    simpl in Hv.
    repeat (destruct Hv as [Hv | Hv]; [inversion Hv; subst; simpl in Heq; discriminate Heq |]).
    destruct Hv.
Defined.

(** ** What a call sends *)

Lemma build_request_not_get self url method params :
  method <> "GET" ->
  build_request self url method params
  = Ok (mk_request method (api_base_url ++ url) [] (request_headers self) (Some (dumps_doc params))).
Proof.
  intros H. apply String.eqb_neq in H. unfold build_request. rewrite H. reflexivity.
Qed.

(** One call of [_make_request] sends the request it built, or nothing when
    building it failed. *)
Lemma make_request_sent server self url method params is_file_download w :
  (exists e, build_request self url method params = Raise e /\
     w_sent (snd (_make_request server self url method params is_file_download w)) = w_sent w) \/
  (exists rq, build_request self url method params = Ok rq /\
     w_sent (snd (_make_request server self url method params is_file_download w))
     = (w_sent w ++ [rq])%list).
Proof.
  rewrite make_request_run.
  destruct (build_request self url method params) as [rq|e]; [right|left]; eexists; split;
    try reflexivity.
  destruct (server rq) as [r|reason]; [|reflexivity].
  destruct (negb (rs_status r =? 200)%Z && negb (rs_status r =? 400)%Z); [reflexivity|].
  destruct is_file_download; [reflexivity|].
  destruct (response_json r); reflexivity.
Qed.

Lemma make_request_sent_not_get server self url method params is_file_download w :
  method <> "GET" ->
  w_sent (snd (_make_request server self url method params is_file_download w))
  = (w_sent w ++ [mk_request method (api_base_url ++ url) [] (request_headers self)
                    (Some (dumps_doc params))])%list.
Proof.
  intros Hm. destruct (make_request_sent server self url method params is_file_download w)
    as [[e [Hb _]] | [rq [Hb Hs]]]; rewrite (build_request_not_get _ _ _ _ Hm) in Hb.
  - discriminate Hb.
  - injection Hb as <-. exact Hs.
Qed.

(** A GET call sends nothing, or one request whose query renders [d]. *)
Lemma make_request_sent_get server self url d is_file_download w :
  exists sent,
    w_sent (snd (_make_request server self url "GET" (Some d) is_file_download w))
      = (w_sent w ++ sent)%list /\
    length sent <= 1 /\
    forall rq, In rq sent ->
      forall k s, In (k, s) (rq_query rq) <-> exists v, In (k, v) d /\ s = query_render v.
Proof.
  destruct (make_request_sent server self url "GET" (Some d) is_file_download w)
    as [[e [_ Hs]] | [rq [Hb Hs]]].
  - exists []. rewrite app_nil_r. split; [exact Hs|]. split; [simpl; lia|]. intros rq [].
  - exists [rq]. split; [exact Hs|]. split; [simpl; lia|].
    intros rq' [<- | []]. apply (get_query_render_iff self url d rq Hb).
Qed.

(** ** C5: importing a file *)

(** C5: [import_project] reads the whole file first; if reading fails the
    error leaves the call untouched and nothing is sent; otherwise exactly
    one POST is sent whose body is [{"language_id": language_id, "file":
    <base64 of the bytes>}], and the bytes [b"file content"] encode as
    ["ZmlsZSBjb250ZW50"]. *)
Theorem import_project_payload server fs self project_id language_id file_path w :
  (fs file_path = None ->
   import_project server fs self project_id language_id file_path w
   = (Raise (OSError file_path), w)) /\
  (forall file_bytes, fs file_path = Some file_bytes ->
   import_project server fs self project_id language_id file_path w
   = _make_request server self ("projects/" ++ project_id ++ "/import") "POST"
       (Some [("language_id", JStr language_id); ("file", JStr (b64encode file_bytes))]) false w /\
   w_sent (snd (import_project server fs self project_id language_id file_path w))
   = (w_sent w ++
      [mk_request "POST" (api_base_url ++ "projects/" ++ project_id ++ "/import") []
         (request_headers self)
         (Some (JObj [("language_id", JStr language_id);
                      ("file", JStr (b64encode file_bytes))]))])%list) /\
  b64encode (list_byte_of_string "file content") = "ZmlsZSBjb250ZW50".
Proof.
  split; [|split].
  - intros H. unfold import_project, bind, read_file. rewrite H. reflexivity.
  - intros bs H.
    assert (Hrun : import_project server fs self project_id language_id file_path w
                   = _make_request server self ("projects/" ++ project_id ++ "/import") "POST"
                       (Some [("language_id", JStr language_id); ("file", JStr (b64encode bs))])
                       false w)
      by (unfold import_project, bind, read_file; rewrite H; reflexivity).
    split; [exact Hrun|]. rewrite Hrun.
    apply make_request_sent_not_get. discriminate.
  - reflexivity.
Qed.

Definition file_content_fs (path : string) : option (list byte) :=
  if String.eqb path "path" then Some (list_byte_of_string "file content") else None.

Lemma import_project_payload_witness :
  w_sent (snd (import_project (status_server 200 (Some (JObj []))) file_content_fs witness_client
                 "proj" "lang" "path" (mk_world [] [])))
  = [mk_request "POST" (api_base_url ++ "projects/proj/import") []
       (request_headers witness_client)
       (Some (JObj [("language_id", JStr "lang"); ("file", JStr "ZmlsZSBjb250ZW50")]))] /\
  import_project (status_server 200 (Some (JObj []))) file_content_fs witness_client
    "proj" "lang" "missing" (mk_world [] []) = (Raise (OSError "missing"), mk_world [] []).
Proof.
  destruct (import_project_payload (status_server 200 (Some (JObj []))) file_content_fs
              witness_client "proj" "lang" "path" (mk_world [] [])) as [_ [Hok Hex]].
  destruct (import_project_payload (status_server 200 (Some (JObj []))) file_content_fs
              witness_client "proj" "lang" "missing" (mk_world [] [])) as [Hmiss _].
  split.
  - rewrite (proj2 (Hok (list_byte_of_string "file content") eq_refl)), Hex. reflexivity.
  - apply Hmiss. reflexivity.
Defined.

(** ** C6: the two defaulting conventions *)

(** C6: [create_translation] without [language_id] sends one POST whose
    JSON body has [null] under ["language_id"]; [get_languages] without
    [search] puts the empty string under ["search"] in the query of every
    request it sends, and with the other arguments left to their defaults
    it does send one. *)
Theorem default_conventions_distinct server self project_id key_id content page per_page w :
  (exists d,
     w_sent (snd (create_translation server self project_id key_id content None w))
     = (w_sent w ++ [mk_request "POST" (api_base_url ++ "projects/" ++ project_id ++ "/translations")
                      [] (request_headers self) (Some (JObj d))])%list /\
     dict_lookup "language_id" d = Some JNull) /\
  (exists sent,
     w_sent (snd (get_languages server self project_id page per_page None w))
     = (w_sent w ++ sent)%list /\
     forall rq, In rq sent -> In ("search", "") (rq_query rq)) /\
  (exists rq,
     w_sent (snd (get_languages server self project_id None None None w))
     = (w_sent w ++ [rq])%list /\ In ("search", "") (rq_query rq)).
Proof.
  split; [|split].
  - exists [("language_id", JNull); ("key_id", key_id);
            ("translation", JObj [("content", JStr content)])]; split.
    + unfold create_translation, _post_request. apply make_request_sent_not_get. discriminate.
    + reflexivity.
  - unfold get_languages, _get_request.
    destruct (make_request_sent_get server self ("projects/" ++ project_id ++ "/languages")
                [("page", arg page (JInt 1)); ("per_page", arg per_page (JInt 10));
                 ("search", let s := arg None JNull in if truthy s then s else JStr "")]
                false w) as [sent [Hs [_ Hq]]].
    exists sent; split; [exact Hs|].
    intros rq Hin. apply (Hq rq Hin). exists (JStr ""). simpl; auto 6.
  - unfold get_languages, _get_request.
    destruct (make_request_sent server self ("projects/" ++ project_id ++ "/languages") "GET"
                (Some [("page", arg None (JInt 1)); ("per_page", arg None (JInt 10));
                       ("search", let s := arg None JNull in if truthy s then s else JStr "")])
                false w) as [[e [Hb _]] | [rq [Hb Hs]]].
    + discriminate Hb.
    + exists rq; split; [exact Hs|].
      apply (get_query_render_iff _ _ _ rq Hb). exists (JStr ""). simpl; auto 6.
Qed.

Lemma default_conventions_distinct_witness :
  exists rq,
    w_sent (snd (get_languages (status_server 200 (Some (JObj []))) witness_client "p"
                   None None None (mk_world [] [])))
    = ([] ++ [rq])%list /\ In ("search", "") (rq_query rq).
Proof.
  apply (proj2 (proj2 (default_conventions_distinct (status_server 200 (Some (JObj [])))
                         witness_client "p" JNull "c" None None (mk_world [] [])))).
Defined.

(** ** C7: export returns the response object *)

(** C7: [export_project] is a GET with [is_file_download = true], and when
    the status is 200 or 400 its result is the response object itself,
    whatever its content type or body. *)
Theorem export_project_raw_handle server self project_id export_config_id options w :
  export_project server self project_id export_config_id options
  = _make_request server self ("projects/" ++ project_id ++ "/exports/" ++ export_config_id)
      "GET" (Some options) true /\
  (forall rq r,
     build_request self ("projects/" ++ project_id ++ "/exports/" ++ export_config_id) "GET"
       (Some options) = Ok rq ->
     server rq = Resp r ->
     (rs_status r = 200 \/ rs_status r = 400)%Z ->
     export_project server self project_id export_config_id options w = (Ok (RRaw r), sent_world rq w)).
Proof.
  split; [reflexivity|].
  intros rq r Hb Hs Hst.
  unfold export_project, _get_request. rewrite make_request_run, Hb, Hs.
  destruct Hst as [-> | ->]; reflexivity.
Qed.

Lemma export_project_raw_handle_witness :
  export_project (status_server 200 (Some (JObj [("data", JNull)]))) witness_client "1" "cfg" []
    (mk_world [] [])
  = (Ok (RRaw (mk_response 200 true (Some (JObj [("data", JNull)])) 0)),
     sent_world (mk_request "GET" (api_base_url ++ "projects/1/exports/cfg") []
                   (request_headers witness_client) None) (mk_world [] [])).
Proof.
  apply (proj2 (export_project_raw_handle (status_server 200 (Some (JObj [("data", JNull)])))
                  witness_client "1" "cfg" [] (mk_world [] []))
           (mk_request "GET" (api_base_url ++ "projects/1/exports/cfg") []
              (request_headers witness_client) None)
           (mk_response 200 true (Some (JObj [("data", JNull)])) 0));
    [reflexivity | reflexivity | left; reflexivity].
Defined.

(** ** C8: the six [get_keys] fields *)

(** C8: whatever arguments [get_keys] gets, the parameter mapping it passes
    on holds the six fields with the supplied or default values, and every
    request it sends has all six in its query, rendered from those values. *)
Theorem get_keys_all_six_fields server self project_id page per_page case_sensitive
        only_html_enabled only_untranslated only_with_overwrites w :
  let fields := [("page", arg page (JInt 1));
                 ("per_page", arg per_page (JInt 10));
                 ("case_sensitive", arg case_sensitive (JBool false));
                 ("only_html_enabled", arg only_html_enabled (JBool false));
                 ("only_untranslated", arg only_untranslated (JBool false));
                 ("only_with_overwrites", arg only_with_overwrites (JBool false))] in
  get_keys server self project_id page per_page case_sensitive only_html_enabled
    only_untranslated only_with_overwrites
  = _make_request server self ("projects/" ++ project_id ++ "/keys") "GET" (Some fields) false /\
  exists sent,
    w_sent (snd (get_keys server self project_id page per_page case_sensitive only_html_enabled
                   only_untranslated only_with_overwrites w)) = (w_sent w ++ sent)%list /\
    length sent <= 1 /\
    forall rq, In rq sent -> forall k v, In (k, v) fields -> In (k, query_render v) (rq_query rq).
Proof.
  intros fields. split; [reflexivity|].
  destruct (make_request_sent_get server self ("projects/" ++ project_id ++ "/keys") fields false w)
    as [sent [Hs [Hl Hq]]].
  exists sent; split; [exact Hs|]; split; [exact Hl|].
  intros rq Hin k v Hkv. apply (Hq rq Hin). eauto.
Qed.

Lemma get_keys_all_six_fields_witness :
  exists sent,
    w_sent (snd (get_keys (status_server 200 (Some (JObj []))) witness_client "p"
                   None None (Some (JBool true)) None None None (mk_world [] [])))
    = ([] ++ sent)%list /\ length sent <= 1 /\
    forall rq, In rq sent -> forall k v,
      In (k, v) [("page", JInt 1); ("per_page", JInt 10); ("case_sensitive", JBool true);
                 ("only_html_enabled", JBool false); ("only_untranslated", JBool false);
                 ("only_with_overwrites", JBool false)] ->
      In (k, query_render v) (rq_query rq).
Proof.
  apply (proj2 (get_keys_all_six_fields (status_server 200 (Some (JObj []))) witness_client "p"
                  None None (Some (JBool true)) None None None (mk_world [] []))).
Defined.

(** ** C1 and C10: the second call made by [create_key] *)

(** Line 163: [new_key["data"]["attributes"]["id"]]. *)
Definition new_key_id (kvs : dict) : outcome json :=
  match py_getitem (JObj kvs) "data" with
  | Ok data =>
      match py_getitem data "attributes" with
      | Ok attributes => py_getitem attributes "id"
      | Raise e => Raise e
      end
  | Raise e => Raise e
  end.

(** [d.get(k)] on a dict. *)
Definition dict_get (k : string) (kvs : dict) : json :=
  match dict_lookup k kvs with Some v => v | None => JNull end.

(** The request [create_translation] sends for the new key. *)
Definition translation_request (self : Texterify) (project_id : string) (key_id : json)
           (content : string) : http_request :=
  mk_request "POST" (api_base_url ++ "projects/" ++ project_id ++ "/translations") []
    (request_headers self)
    (Some (JObj [("language_id", JNull); ("key_id", key_id);
                 ("translation", JObj [("content", JStr content)])])).

Definition key_request_params (name description : string) : option dict :=
  Some [("name", JStr name); ("description", JStr description)].

Lemma create_key_primary server self project_id name description dlt w nk w1 :
  _post_request server self ("projects/" ++ project_id ++ "/keys") (key_request_params name description) w
    = (Ok nk, w1) ->
  create_key server self project_id name description dlt w
  = (bind (lift (py_get nk "error")) (fun error =>
     bind (if negb (truthy error) then
             bind (lift (py_get nk "data")) (fun data =>
             ret (truthy data && opt_str_truthy dlt))
           else ret false) (fun go =>
     bind (if go then
             bind (lift (result_getitem nk "data")) (fun data =>
             bind (lift (py_getitem data "attributes")) (fun attributes =>
             bind (lift (py_getitem attributes "id")) (fun key_id =>
             bind (create_translation server self project_id key_id
                     (match dlt with Some s => s | None => "" end) None)
               (fun new_translation_response =>
             bind (lift (py_get new_translation_response "error")) (fun err =>
             match err with
             | JStr s => if String.eqb s "NO_DEFAULT_LANGUAGE_SPECIFIED"
                         then log LogNoDefaultLanguage else ret tt
             | _ => ret tt
             end)))))
           else ret tt) (fun _ => ret nk)))) w1.
Proof.
  intros H. unfold create_key at 1. unfold bind at 1. unfold key_request_params in H.
  rewrite H. reflexivity.
Qed.

Lemma build_translation_request self project_id key_id content :
  build_request self ("projects/" ++ project_id ++ "/translations") "POST"
    (Some [("language_id", JNull); ("key_id", key_id);
           ("translation", JObj [("content", JStr content)])])
  = Ok (translation_request self project_id key_id content).
Proof. apply build_request_not_get. discriminate. Qed.

(** C1, as the code does it.  Say the key-creation POST returned the JSON
    object [kvs].  The condition of line 160 uses Python truthiness: if
    [kvs]'s ["error"] is missing or falsy, its ["data"] is truthy and
    [default_language_translation] is a non-empty string, then
    [kvs["data"]["attributes"]["id"]] is read: if that subscript fails its
    exception is raised and nothing more is sent; otherwise exactly one more
    request is sent, the [create_translation] POST for that key id with the
    translation as content and a [null] language, and when it is answered
    with a JSON object [create_key] returns [kvs].  If the condition does
    not hold, nothing more is sent and [create_key] returns [kvs]. *)
Theorem create_key_secondary_call server self project_id name description dlt w kvs w1 :
  _post_request server self ("projects/" ++ project_id ++ "/keys")
    (key_request_params name description) w = (Ok (RJson (JObj kvs)), w1) ->
  (negb (truthy (dict_get "error" kvs)) && truthy (dict_get "data" kvs) && opt_str_truthy dlt
     = false ->
   create_key server self project_id name description dlt w = (Ok (RJson (JObj kvs)), w1)) /\
  (forall content, dlt = Some content -> content <> "" ->
   truthy (dict_get "error" kvs) = false -> truthy (dict_get "data" kvs) = true ->
   (forall e, new_key_id kvs = Raise e ->
      create_key server self project_id name description dlt w = (Raise e, w1)) /\
   (forall key_id, new_key_id kvs = Ok key_id ->
      w_sent (snd (create_key server self project_id name description dlt w))
        = (w_sent w1 ++ [translation_request self project_id key_id content])%list /\
      (forall r tkvs, server (translation_request self project_id key_id content) = Resp r ->
         (rs_status r = 200 \/ rs_status r = 400)%Z -> response_json r = Ok (JObj tkvs) ->
         fst (create_key server self project_id name description dlt w)
           = Ok (RJson (JObj kvs))))).
Proof.
  intros Hp.
  pose proof (create_key_primary server self project_id name description dlt w _ w1 Hp) as Hrun.
  unfold bind, lift, ret in Hrun.
  change (py_get (RJson (JObj kvs)) "error") with (@Ok json (dict_get "error" kvs)) in Hrun.
  change (py_get (RJson (JObj kvs)) "data") with (@Ok json (dict_get "data" kvs)) in Hrun.
  change (result_getitem (RJson (JObj kvs)) "data") with (py_getitem (JObj kvs) "data") in Hrun.
  cbv beta iota zeta in Hrun.
  split.
  - intros Hc. rewrite Hrun.
    destruct (truthy (dict_get "error" kvs)); [reflexivity|].
    change (truthy (dict_get "data" kvs) && opt_str_truthy dlt = false) in Hc.
    cbn [negb]. rewrite Hc. reflexivity.
  - intros content -> Hne He Hd.
    assert (Ho : opt_str_truthy (Some content) = true)
      by (unfold opt_str_truthy; apply String.eqb_neq in Hne; rewrite Hne; reflexivity).
    rewrite He, Hd, Ho in Hrun. cbn [negb andb] in Hrun.
    rewrite Hrun. unfold new_key_id.
    destruct (py_getitem (JObj kvs) "data") as [data|e1];
      [destruct (py_getitem data "attributes") as [attrs|e2];
       [destruct (py_getitem attrs "id") as [kid|e3]|]|];
      try (split; [intros e H; injection H as <-; reflexivity | intros k H; discriminate H]).
    split; [intros e H; discriminate H|].
    intros key_id H; injection H as <-.
    assert (Hsent : w_sent (snd (create_translation server self project_id kid content None w1))
                    = (w_sent w1 ++ [translation_request self project_id kid content])%list)
      by (unfold create_translation, _post_request;
          rewrite (make_request_sent_not_get server self _ "POST" _ false w1) by discriminate;
          reflexivity).
    destruct (create_translation server self project_id kid content None w1) as [o w2] eqn:Ht.
    cbn [snd] in Hsent.
    split.
    + rewrite <- Hsent.
      destruct o as [a2|e]; [|reflexivity].
      cbv beta iota zeta.
      destruct (py_get a2 "error") as [[| | | s | |]|e]; try reflexivity.
      destruct (String.eqb s "NO_DEFAULT_LANGUAGE_SPECIFIED"); reflexivity.
    + intros r tkvs Hs Hst Hj.
      assert (Hct : create_translation server self project_id kid content None w1
                    = (Ok (RJson (JObj tkvs)),
                       sent_world (translation_request self project_id kid content) w1)).
      { unfold create_translation, _post_request. rewrite make_request_run.
        rewrite (build_translation_request self project_id kid content), Hs, Hj.
        destruct Hst as [-> | ->]; reflexivity. }
      rewrite Ht in Hct. injection Hct as -> ->.
      cbv beta iota zeta.
      change (py_get (RJson (JObj tkvs)) "error") with (@Ok json (dict_get "error" tkvs)).
      destruct (dict_get "error" tkvs) as [| | | s | |]; try reflexivity.
      cbv beta iota zeta.
      destruct (String.eqb s "NO_DEFAULT_LANGUAGE_SPECIFIED"); reflexivity.
Qed.

(** A key-creation answer as in the spec's example, and one with a [null] error. *)
Definition key_body : json := JObj [("data", JObj [("attributes", JObj [("id", JStr "1")])])].

Definition null_error_key_body : json :=
  JObj [("error", JNull); ("data", JObj [("attributes", JObj [("id", JStr "1")])])].

Definition key_request (self : Texterify) (project_id name description : string) : http_request :=
  mk_request "POST" (api_base_url ++ "projects/" ++ project_id ++ "/keys") [] (request_headers self)
    (Some (JObj [("name", JStr name); ("description", JStr description)])).

(** C1, counterexample: the answer carries an ["error"] field (its value is
    [null]), yet [create_key] with a translation sends the translation
    request: two requests in all. *)
Lemma create_key_null_error_field_still_translates :
  dict_lookup "error" [("error", JNull); ("data", JObj [("attributes", JObj [("id", JStr "1")])])]
    = Some JNull /\
  w_sent (snd (create_key (status_server 200 (Some null_error_key_body)) witness_client
                 "p" "n" "d" (Some "x") (mk_world [] [])))
  = [key_request witness_client "p" "n" "d"; translation_request witness_client "p" (JStr "1") "x"].
Proof. split; reflexivity. Qed.

Lemma create_key_secondary_call_witness :
  w_sent (snd (create_key (status_server 200 (Some key_body)) witness_client
                 "p" "n" "d" (Some "x") (mk_world [] [])))
  = ([key_request witness_client "p" "n" "d"] ++
     [translation_request witness_client "p" (JStr "1") "x"])%list.
Proof.
  destruct (create_key_secondary_call (status_server 200 (Some key_body)) witness_client
              "p" "n" "d" (Some "x") (mk_world [] [])
              [("data", JObj [("attributes", JObj [("id", JStr "1")])])]
              (sent_world (key_request witness_client "p" "n" "d") (mk_world [] [])) eq_refl)
    as [_ H2].
  destruct (H2 "x" eq_refl ltac:(discriminate) eq_refl eq_refl) as [_ H3].
  apply (proj1 (H3 (JStr "1") eq_refl)).
Defined.

(** The run of [create_key] once the condition of line 160 holds and the key id is read. *)
Lemma create_key_translation_run server self project_id name description content w kvs w1 key_id :
  _post_request server self ("projects/" ++ project_id ++ "/keys")
    (key_request_params name description) w = (Ok (RJson (JObj kvs)), w1) ->
  content <> "" ->
  truthy (dict_get "error" kvs) = false -> truthy (dict_get "data" kvs) = true ->
  new_key_id kvs = Ok key_id ->
  create_key server self project_id name description (Some content) w
  = (new_translation_response <- create_translation server self project_id key_id content None ;;
     err <- lift (py_get new_translation_response "error") ;;
     (match err with
      | JStr s => if String.eqb s "NO_DEFAULT_LANGUAGE_SPECIFIED"
                  then log LogNoDefaultLanguage else ret tt
      | _ => ret tt
      end) ;;
     ret (RJson (JObj kvs))) w1.
Proof.
  intros Hp Hne He Hd Hk.
  pose proof (create_key_primary server self project_id name description (Some content) w _ w1 Hp)
    as Hrun.
  unfold bind, lift, ret in Hrun |- *.
  change (py_get (RJson (JObj kvs)) "error") with (@Ok json (dict_get "error" kvs)) in Hrun.
  change (py_get (RJson (JObj kvs)) "data") with (@Ok json (dict_get "data" kvs)) in Hrun.
  change (result_getitem (RJson (JObj kvs)) "data") with (py_getitem (JObj kvs) "data") in Hrun.
  assert (Ho : opt_str_truthy (Some content) = true)
    by (unfold opt_str_truthy; apply String.eqb_neq in Hne; rewrite Hne; reflexivity).
  cbv beta iota zeta in Hrun. rewrite He, Hd, Ho in Hrun. cbn [negb andb] in Hrun.
  rewrite Hrun. unfold new_key_id in Hk.
  destruct (py_getitem (JObj kvs) "data") as [data|e1]; [|discriminate Hk].
  destruct (py_getitem data "attributes") as [attrs|e2]; [|discriminate Hk].
  rewrite Hk. cbv beta iota zeta.
  destruct (create_translation server self project_id key_id content None w1) as [[a|e] w2];
    [|reflexivity].
  destruct (py_get a "error") as [err|e]; [|reflexivity].
  destruct err; reflexivity.
Qed.

Lemma create_translation_answered server self project_id key_id content w1 r j :
  server (translation_request self project_id key_id content) = Resp r ->
  (rs_status r = 200 \/ rs_status r = 400)%Z -> response_json r = Ok j ->
  create_translation server self project_id key_id content None w1
  = (Ok (RJson j), sent_world (translation_request self project_id key_id content) w1).
Proof.
  intros Hs Hst Hj. unfold create_translation, _post_request. rewrite make_request_run.
  rewrite (build_translation_request self project_id key_id content), Hs, Hj.
  destruct Hst as [-> | ->]; reflexivity.
Qed.

(** C10: when the translation request is answered with a JSON object whose
    ["error"] is anything but ["NO_DEFAULT_LANGUAGE_SPECIFIED"], [create_key]
    logs nothing, raises nothing and returns the key-creation answer; the
    only change to the state after the key creation is the translation
    request having been sent.  And whatever the second answer, a value
    that [create_key] returns is the key-creation answer. *)
Theorem create_key_secondary_error_ignored server self project_id name description dlt w :
  (forall content kvs w1 key_id r tkvs err,
     _post_request server self ("projects/" ++ project_id ++ "/keys")
       (key_request_params name description) w = (Ok (RJson (JObj kvs)), w1) ->
     dlt = Some content -> content <> "" ->
     truthy (dict_get "error" kvs) = false -> truthy (dict_get "data" kvs) = true ->
     new_key_id kvs = Ok key_id ->
     server (translation_request self project_id key_id content) = Resp r ->
     (rs_status r = 200 \/ rs_status r = 400)%Z ->
     response_json r = Ok (JObj tkvs) ->
     dict_lookup "error" tkvs = Some err -> err <> JStr "NO_DEFAULT_LANGUAGE_SPECIFIED" ->
     create_key server self project_id name description dlt w
     = (Ok (RJson (JObj kvs)),
        mk_world (w_log w1) (w_sent w1 ++ [translation_request self project_id key_id content]))) /\
  (forall v w',
     create_key server self project_id name description dlt w = (Ok v, w') ->
     exists w1, _post_request server self ("projects/" ++ project_id ++ "/keys")
                  (key_request_params name description) w = (Ok v, w1)).
Proof.
  split.
  - intros content kvs w1 key_id r tkvs err Hp -> Hne He Hd Hk Hs Hst Hj Herr Hne'.
    rewrite (create_key_translation_run server self project_id name description content w kvs w1
               key_id Hp Hne He Hd Hk).
    unfold bind at 1.
    rewrite (create_translation_answered server self project_id key_id content w1 r _ Hs Hst Hj).
    unfold bind, lift, ret. cbv beta iota zeta.
    change (py_get (RJson (JObj tkvs)) "error") with (@Ok json (dict_get "error" tkvs)).
    unfold dict_get. rewrite Herr. cbv beta iota zeta.
    destruct err as [| | | s | |]; try reflexivity.
    destruct (String.eqb s "NO_DEFAULT_LANGUAGE_SPECIFIED") eqn:Hc.
    + apply String.eqb_eq in Hc. subst s. contradiction.
    + reflexivity.
  - intros v w' H.
    unfold create_key, bind, lift, ret, log in H.
    destruct (_post_request server self ("projects/" ++ project_id ++ "/keys")
                (Some [("name", JStr name); ("description", JStr description)]) w)
      as [[nk|e] w1] eqn:Hp; [|discriminate H].
    exists w1.
    repeat (match type of H with
            | context [match ?x with _ => _ end] => destruct x
            end; try discriminate H);
      injection H as <- _; exact Hp.
Qed.

(** A server creating the key, then refusing the translation with some other error code. *)
Definition other_error_server (rq : http_request) : transport :=
  if String.eqb (rq_url rq) (api_base_url ++ "projects/p/keys")
  then Resp (mk_response 200 true (Some key_body) 0)
  else Resp (mk_response 400 true (Some (JObj [("error", JStr "OTHER")])) 1).

Lemma create_key_secondary_error_ignored_witness :
  create_key other_error_server witness_client "p" "n" "d" (Some "x") (mk_world [] [])
  = (Ok (RJson key_body),
     mk_world [] ([key_request witness_client "p" "n" "d"] ++
                  [translation_request witness_client "p" (JStr "1") "x"])).
Proof.
  apply (proj1 (create_key_secondary_error_ignored other_error_server
                  witness_client "p" "n" "d" (Some "x") (mk_world [] []))
           "x" [("data", JObj [("attributes", JObj [("id", JStr "1")])])]
           (sent_world (key_request witness_client "p" "n" "d") (mk_world [] []))
           (JStr "1")
           (mk_response 400 true (Some (JObj [("error", JStr "OTHER")])) 1)
           [("error", JStr "OTHER")]
           (JStr "OTHER"));
    first [reflexivity | discriminate | right; reflexivity].
Defined.

(** * Further properties of the client *)

(** ** Requests as built and sent *)

Lemma build_request_fields self url method params rq :
  build_request self url method params = Ok rq ->
  rq_method rq = method /\ rq_url rq = api_base_url ++ url /\
  rq_headers rq = request_headers self /\ (rq_body rq = None <-> method = "GET").
Proof.
  intros H. unfold build_request in H.
  destruct (String.eqb method "GET") eqn:Hm; cbn [negb andb] in H.
  - apply String.eqb_eq in Hm.
    destruct (params_truthy params); cbv beta iota zeta in H;
      (destruct (aiohttp_extend_query _ _) as [q|e]; [|discriminate H]);
      injection H as <-; repeat split; auto.
  - cbv beta iota zeta in H. injection H as <-. apply String.eqb_neq in Hm.
    repeat split; intros Hc; [discriminate Hc | contradiction].
Qed.

Lemma make_request_sent_built server self url method params is_file_download w rq :
  build_request self url method params = Ok rq ->
  w_sent (snd (_make_request server self url method params is_file_download w))
  = (w_sent w ++ [rq])%list.
Proof.
  intros Hb.
  destruct (make_request_sent server self url method params is_file_download w)
    as [[e [He _]] | [rq' [Hb' Hs]]]; rewrite Hb in *; [discriminate He|].
  injection Hb' as <-. exact Hs.
Qed.

(** X1: one call of [_make_request] sends at most one request and never
    retries; a request it sends has the method asked for, the URL
    [api_base_url ++ url], the constructor's headers (with the account's
    [Auth-Email] and [Auth-Secret]), and a body exactly when the method is
    not GET. *)
Theorem make_request_sends_at_most_one server self url method params is_file_download w :
  exists sent,
    w_sent (snd (_make_request server self url method params is_file_download w))
      = (w_sent w ++ sent)%list /\
    length sent <= 1 /\
    forall rq, In rq sent ->
      rq_method rq = method /\ rq_url rq = api_base_url ++ url /\
      rq_headers rq = request_headers self /\ (rq_body rq = None <-> method = "GET").
Proof.
  destruct (make_request_sent server self url method params is_file_download w)
    as [[e [_ Hs]] | [rq [Hb Hs]]].
  - exists []. rewrite app_nil_r. split; [exact Hs|]. split; [simpl; lia|]. intros rq [].
  - exists [rq]. split; [exact Hs|]. split; [simpl; lia|].
    intros rq' [<- | []]. exact (build_request_fields _ _ _ _ _ Hb).
Qed.

(** X2: a call of [_make_request] that returns normally logs nothing; one
    that raises has added at most one diagnostic line followed by the
    catch-all line for the very exception it raises. *)
Theorem make_request_log_only_on_failure server self url method params is_file_download w :
  (exists v, fst (_make_request server self url method params is_file_download w) = Ok v /\
     w_log (snd (_make_request server self url method params is_file_download w)) = w_log w) \/
  (exists e l, fst (_make_request server self url method params is_file_download w) = Raise e /\
     w_log (snd (_make_request server self url method params is_file_download w))
       = (w_log w ++ l ++ [LogError e])%list /\ length l <= 1).
Proof.
  rewrite make_request_run.
  destruct (build_request self url method params) as [rq|e].
  2:{ right. exists e, []. repeat split. simpl; lia. }
  destruct (server rq) as [r|reason].
  2:{ right. exists (ClientError reason), []. repeat split. simpl; lia. }
  destruct (negb (rs_status r =? 200)%Z && negb (rs_status r =? 400)%Z).
  - right. exists (StatusError (rs_status r)), [status_log (rs_status r)].
    split; [reflexivity|]. split; [|simpl; lia].
    cbn [snd w_log log_world sent_world]. rewrite <- app_assoc. reflexivity.
  - destruct is_file_download; [left; eexists; split; reflexivity|].
    destruct (response_json r) as [j|e]; [left; eexists; split; reflexivity|].
    right. exists e, []. repeat split. simpl; lia.
Qed.

(** ** The remaining operations *)

(** X3: [update_key] sends exactly one PUT to [projects/{project_id}/keys/{key_id}]
    whose JSON body is [{"name": name, "description": description}]. *)
Theorem update_key_request server self project_id key_id name description w :
  w_sent (snd (update_key server self project_id key_id name description w))
  = (w_sent w ++ [mk_request "PUT" (api_base_url ++ "projects/" ++ project_id ++ "/keys/" ++ key_id)
                    [] (request_headers self)
                    (Some (JObj [("name", JStr name); ("description", JStr description)]))])%list.
Proof. unfold update_key, _put_request. apply make_request_sent_not_get. discriminate. Qed.

(** X4: for any [keys] that [json.dumps] can serialise (a JSON value:
    [None], a bool, an int, a string, a list or a string-keyed dict of
    these), [delete_keys] sends exactly one DELETE to
    [projects/{project_id}/keys] whose JSON body is [{"keys": keys}], with
    [keys] passed on as it is, not checked to be a list of ids. *)
Theorem delete_keys_request server self project_id keys w :
  w_sent (snd (delete_keys server self project_id keys w))
  = (w_sent w ++ [mk_request "DELETE" (api_base_url ++ "projects/" ++ project_id ++ "/keys")
                    [] (request_headers self) (Some (JObj [("keys", keys)]))])%list.
Proof. unfold delete_keys, _delete_request. apply make_request_sent_not_get. discriminate. Qed.

(** X5: [create_project] and [update_project] send the same request to
    ["projects"], with the body [{"project": {"name": ..., "description":
    ...}}], except that one is a POST and the other a PUT: the URL of
    [update_project] names no project. *)
Theorem project_create_update_requests server self name description w :
  let body := Some (JObj [("project", JObj [("name", JStr name);
                                            ("description", JStr description)])]) in
  w_sent (snd (create_project server self name description w))
    = (w_sent w ++ [mk_request "POST" (api_base_url ++ "projects") [] (request_headers self) body])%list /\
  w_sent (snd (update_project server self name description w))
    = (w_sent w ++ [mk_request "PUT" (api_base_url ++ "projects") [] (request_headers self) body])%list.
Proof.
  intros body. split.
  - unfold create_project, _post_request. apply make_request_sent_not_get. discriminate.
  - unfold update_project, _put_request. apply make_request_sent_not_get. discriminate.
Qed.

Lemma build_request_get_falsy self url params :
  params_truthy params = false ->
  build_request self url "GET" params
  = Ok (mk_request "GET" (api_base_url ++ url) [] (request_headers self) None).
Proof. intros H. destruct params as [[|p d]|]; [reflexivity | discriminate H | reflexivity]. Qed.

(** X6: a GET whose parameters are [None] or an empty mapping sends the
    bare URL: an empty query and no body. *)
Theorem get_without_params_bare server self url params is_file_download w :
  params_truthy params = false ->
  w_sent (snd (_make_request server self url "GET" params is_file_download w))
  = (w_sent w ++ [mk_request "GET" (api_base_url ++ url) [] (request_headers self) None])%list.
Proof. intros H. apply make_request_sent_built, build_request_get_falsy, H. Qed.

Lemma get_without_params_bare_witness :
  params_truthy (Some []) = false /\
  w_sent (snd (_make_request (status_server 200 None) witness_client "projects" "GET" (Some [])
                 false (mk_world [] [])))
  = (w_sent (mk_world [] []) ++
     [mk_request "GET" (api_base_url ++ "projects") [] (request_headers witness_client) None])%list.
Proof.
  split; [reflexivity|].
  apply (get_without_params_bare (status_server 200 None) witness_client "projects" (Some [])
           false (mk_world [] [])).
  reflexivity.
Defined.

(** X7: [get_projects] and [get_project] each send exactly one GET, to
    ["projects"] and [projects/{project_id}], with an empty query and no body. *)
Theorem get_projects_bare_requests server self project_id w :
  w_sent (snd (get_projects server self w))
    = (w_sent w ++ [mk_request "GET" (api_base_url ++ "projects") [] (request_headers self) None])%list /\
  w_sent (snd (get_project server self project_id w))
    = (w_sent w ++ [mk_request "GET" (api_base_url ++ "projects/" ++ project_id) []
                      (request_headers self) None])%list.
Proof.
  split.
  - unfold get_projects, _get_request. apply make_request_sent_built, build_request_get_falsy.
    reflexivity.
  - unfold get_project, _get_request. apply make_request_sent_built, build_request_get_falsy.
    reflexivity.
Qed.

(** ** Values a GET query cannot carry *)





(** ** [create_key] beyond the main path *)

Lemma create_translation_sent server self project_id key_id content w1 :
  w_sent (snd (create_translation server self project_id key_id content None w1))
  = (w_sent w1 ++ [translation_request self project_id key_id content])%list.
Proof.
  unfold create_translation, _post_request.
  apply make_request_sent_built, build_translation_request.
Qed.

(** X9: [create_key] always sends the key-creation POST first, and then
    at most one more request, the [create_translation] POST for some key
    id with the supplied translation as content; nothing else is ever sent. *)
Theorem create_key_sent_requests server self project_id name description dlt w :
  w_sent (snd (create_key server self project_id name description dlt w))
    = (w_sent w ++ [key_request self project_id name description])%list \/
  exists key_id,
    w_sent (snd (create_key server self project_id name description dlt w))
    = (w_sent w ++ [key_request self project_id name description;
                    translation_request self project_id key_id
                      (match dlt with Some s => s | None => "" end)])%list.
Proof.
  set (content := match dlt with Some s => s | None => "" end).
  assert (Hp : w_sent (snd (_post_request server self ("projects/" ++ project_id ++ "/keys")
                              (key_request_params name description) w))
               = (w_sent w ++ [key_request self project_id name description])%list)
    by (unfold _post_request; apply make_request_sent_not_get; discriminate).
  destruct (_post_request server self ("projects/" ++ project_id ++ "/keys")
              (key_request_params name description) w) as [[nk|e] w1] eqn:Hpost;
    cbn [snd] in Hp.
  2:{ left. unfold create_key, bind at 1. unfold key_request_params in Hpost.
      rewrite Hpost. exact Hp. }
  rewrite (create_key_primary server self project_id name description dlt w nk w1 Hpost).
  unfold bind, lift, ret, log.
  repeat (cbv beta iota zeta delta [negb andb];
          match goal with
          | |- context [match ?x with _ => _ end] =>
              lazymatch x with
              | context [match _ with _ => _ end] => fail
              | _ => destruct x eqn:?
              end
          end);
    cbn [snd w_sent log_world];
    first [ left; exact Hp
          | right;
            match goal with
            | Ht : create_translation server self project_id ?k ?c None ?w' = (_, ?w2) |- _ =>
                pose proof (create_translation_sent server self project_id k c w') as Hs;
                rewrite Ht in Hs; cbn [snd] in Hs; exists k;
                rewrite Hs, Hp, <- app_assoc; reflexivity
            end ].
Qed.

(** X10: when the key-creation request fails, [create_key] raises that
    same exception and stops: nothing more is sent or logged. *)
Theorem create_key_primary_failure server self project_id name description dlt w e w1 :
  _post_request server self ("projects/" ++ project_id ++ "/keys")
    (key_request_params name description) w = (Raise e, w1) ->
  create_key server self project_id name description dlt w = (Raise e, w1).
Proof.
  intros H. unfold create_key, bind at 1. unfold key_request_params in H. rewrite H. reflexivity.
Qed.

Lemma create_key_primary_failure_witness :
  create_key (status_server 500 None) witness_client "p" "n" "d" (Some "x") (mk_world [] [])
  = (Raise (StatusError 500),
     mk_world [LogInvalidStatus 500; LogError (StatusError 500)]
       [key_request witness_client "p" "n" "d"]).
Proof.
  apply (create_key_primary_failure (status_server 500 None) witness_client "p" "n" "d" (Some "x")
           (mk_world [] [])).
  reflexivity.
Defined.

(** X11: when the key-creation answer is not a JSON object (a list, a
    string, a number, ...), the [new_key.get("error")] of line 160 raises
    [AttributeError]; it is raised outside [_make_request], so it is not
    logged, and nothing more is sent. *)
Theorem create_key_non_object_answer server self project_id name description dlt w r w1 :
  _post_request server self ("projects/" ++ project_id ++ "/keys")
    (key_request_params name description) w = (Ok r, w1) ->
  (forall kvs, r <> RJson (JObj kvs)) ->
  create_key server self project_id name description dlt w = (Raise AttributeError, w1).
Proof.
  intros Hp Hn. rewrite (create_key_primary server self project_id name description dlt w r w1 Hp).
  unfold bind, lift.
  destruct r as [[| | | | | kvs] | resp]; try reflexivity.
  exfalso. exact (Hn kvs eq_refl).
Qed.

Lemma create_key_non_object_answer_witness :
  create_key (status_server 200 (Some (JList []))) witness_client "p" "n" "d" (Some "x")
    (mk_world [] [])
  = (Raise AttributeError, mk_world [] [key_request witness_client "p" "n" "d"]).
Proof.
  apply (create_key_non_object_answer (status_server 200 (Some (JList []))) witness_client
           "p" "n" "d" (Some "x") (mk_world [] []) (RJson (JList [])));
    [reflexivity | intros kvs H; discriminate H].
Defined.

(** X12: when the translation request is answered with a JSON object whose
    ["error"] is ["NO_DEFAULT_LANGUAGE_SPECIFIED"], [create_key] logs the
    default-language message once, raises nothing and returns the
    key-creation answer. *)
Theorem create_key_no_default_language_logged server self project_id name description content
        w kvs w1 key_id r tkvs :
  _post_request server self ("projects/" ++ project_id ++ "/keys")
    (key_request_params name description) w = (Ok (RJson (JObj kvs)), w1) ->
  content <> "" ->
  truthy (dict_get "error" kvs) = false -> truthy (dict_get "data" kvs) = true ->
  new_key_id kvs = Ok key_id ->
  server (translation_request self project_id key_id content) = Resp r ->
  (rs_status r = 200 \/ rs_status r = 400)%Z ->
  response_json r = Ok (JObj tkvs) ->
  dict_lookup "error" tkvs = Some (JStr "NO_DEFAULT_LANGUAGE_SPECIFIED") ->
  create_key server self project_id name description (Some content) w
  = (Ok (RJson (JObj kvs)),
     mk_world (w_log w1 ++ [LogNoDefaultLanguage])
              (w_sent w1 ++ [translation_request self project_id key_id content])).
Proof.
  intros Hp Hne He Hd Hk Hs Hst Hj Herr.
  rewrite (create_key_translation_run server self project_id name description content w kvs w1
             key_id Hp Hne He Hd Hk).
  unfold bind at 1.
  rewrite (create_translation_answered server self project_id key_id content w1 r _ Hs Hst Hj).
  unfold bind, lift, ret, log. cbv beta iota zeta.
  change (py_get (RJson (JObj tkvs)) "error") with (@Ok json (dict_get "error" tkvs)).
  unfold dict_get. rewrite Herr. reflexivity.
Qed.

(** A server creating the key, then answering every other request with
    the given status and body. *)
Definition keyed_server (status : Z) (body : option json) (rq : http_request) : transport :=
  if String.eqb (rq_url rq) (api_base_url ++ "projects/p/keys")
  then Resp (mk_response 200 true (Some key_body) 0)
  else Resp (mk_response status true body 1).

Lemma create_key_no_default_language_logged_witness :
  create_key (keyed_server 400 (Some (JObj [("error", JStr "NO_DEFAULT_LANGUAGE_SPECIFIED")])))
    witness_client "p" "n" "d" (Some "x") (mk_world [] [])
  = (Ok (RJson key_body),
     mk_world ([] ++ [LogNoDefaultLanguage])
       ([key_request witness_client "p" "n" "d"] ++
        [translation_request witness_client "p" (JStr "1") "x"])).
Proof.
  apply (create_key_no_default_language_logged
           (keyed_server 400 (Some (JObj [("error", JStr "NO_DEFAULT_LANGUAGE_SPECIFIED")])))
           witness_client "p" "n" "d" "x" (mk_world [] [])
           [("data", JObj [("attributes", JObj [("id", JStr "1")])])]
           (sent_world (key_request witness_client "p" "n" "d") (mk_world [] []))
           (JStr "1")
           (mk_response 400 true (Some (JObj [("error", JStr "NO_DEFAULT_LANGUAGE_SPECIFIED")])) 1)
           [("error", JStr "NO_DEFAULT_LANGUAGE_SPECIFIED")]);
    first [reflexivity | discriminate | right; reflexivity].
Defined.

(** X13: when the translation request is answered with a status other
    than 200 and 400, [create_key] does not swallow it: the status error
    propagates out of [create_key], after both requests were sent and the
    status was logged twice by [_make_request]. *)
Theorem create_key_translation_status_failure server self project_id name description content
        w kvs w1 key_id r :
  _post_request server self ("projects/" ++ project_id ++ "/keys")
    (key_request_params name description) w = (Ok (RJson (JObj kvs)), w1) ->
  content <> "" ->
  truthy (dict_get "error" kvs) = false -> truthy (dict_get "data" kvs) = true ->
  new_key_id kvs = Ok key_id ->
  server (translation_request self project_id key_id content) = Resp r ->
  (rs_status r <> 200 /\ rs_status r <> 400)%Z ->
  create_key server self project_id name description (Some content) w
  = (Raise (StatusError (rs_status r)),
     mk_world (w_log w1 ++ [status_log (rs_status r); LogError (StatusError (rs_status r))])
              (w_sent w1 ++ [translation_request self project_id key_id content])).
Proof.
  intros Hp Hne He Hd Hk Hs [H200 H400].
  rewrite (create_key_translation_run server self project_id name description content w kvs w1
             key_id Hp Hne He Hd Hk).
  unfold bind at 1.
  assert (Hct : create_translation server self project_id key_id content None w1
                = (Raise (StatusError (rs_status r)),
                   log_world (LogError (StatusError (rs_status r)))
                     (log_world (status_log (rs_status r))
                        (sent_world (translation_request self project_id key_id content) w1)))).
  { unfold create_translation, _post_request. rewrite make_request_run.
    rewrite (build_translation_request self project_id key_id content), Hs.
    apply Z.eqb_neq in H200; apply Z.eqb_neq in H400. rewrite H200, H400. reflexivity. }
  rewrite Hct. unfold log_world, sent_world. cbn [w_log w_sent].
  rewrite <- app_assoc. reflexivity.
Qed.

Lemma create_key_translation_status_failure_witness :
  create_key (keyed_server 500 None) witness_client "p" "n" "d" (Some "x") (mk_world [] [])
  = (Raise (StatusError 500),
     mk_world ([] ++ [status_log 500; LogError (StatusError 500)])
       ([key_request witness_client "p" "n" "d"] ++
        [translation_request witness_client "p" (JStr "1") "x"])).
Proof.
  apply (create_key_translation_status_failure (keyed_server 500 None) witness_client
           "p" "n" "d" "x" (mk_world [] [])
           [("data", JObj [("attributes", JObj [("id", JStr "1")])])]
           (sent_world (key_request witness_client "p" "n" "d") (mk_world [] []))
           (JStr "1") (mk_response 500 true None 1));
    first [reflexivity | discriminate | split; discriminate].
Defined.

(** ** The [search] argument of [get_languages] *)

(** X14: [get_languages] sends at most one request, and the query of a
    request it sends carries [search] when that argument is truthy and the
    empty string when it is falsy or not given ([None], [""], [0],
    [False], an empty list or dict). *)
Theorem get_languages_search_value server self project_id page per_page search w :
  exists sent,
    w_sent (snd (get_languages server self project_id page per_page search w))
      = (w_sent w ++ sent)%list /\
    length sent <= 1 /\
    forall rq, In rq sent ->
      In ("search", if truthy (arg search JNull) then query_render (arg search JNull) else "")
         (rq_query rq).
Proof.
  unfold get_languages, _get_request.
  destruct (make_request_sent_get server self ("projects/" ++ project_id ++ "/languages")
              [("page", arg page (JInt 1)); ("per_page", arg per_page (JInt 10));
               ("search", let s := arg search JNull in if truthy s then s else JStr "")]
              false w) as [sent [Hs [Hl Hq]]].
  exists sent. split; [exact Hs|]. split; [exact Hl|].
  intros rq Hin. apply (Hq rq Hin).
  exists (if truthy (arg search JNull) then arg search JNull else JStr "").
  split; [simpl; auto|].
  destruct (truthy (arg search JNull)); reflexivity.
Qed.

(** ** The base64 payload of [import_project] *)

Lemma list3_ind (P : list byte -> Prop) :
  P [] -> (forall a, P [a]) -> (forall a b, P [a; b]) ->
  (forall a b c r, P r -> P (a :: b :: c :: r)) -> forall l, P l.
Proof.
  intros H0 H1 H2 H3. fix F 1. intros [| a [| b [| c r]]].
  - exact H0.
  - apply H1.
  - apply H2.
  - apply H3, F.
Qed.

(** The position of a character in a string (its length when absent). *)
Fixpoint string_index (c : ascii) (s : string) : N :=
  match s with
  | EmptyString => 0
  | String d s' => if Ascii.eqb c d then 0 else N.succ (string_index c s')
  end.

Lemma b64_char_table i :
  (i < 64)%N -> string_index (b64_char i) b64_alphabet = i /\ b64_char i <> "="%char.
Proof.
  intros Hi.
  assert (H : forallb (fun k => let i := N.of_nat k in
                        N.eqb (string_index (b64_char i) b64_alphabet) i &&
                        negb (Ascii.eqb (b64_char i) "="%char)) (seq 0 64) = true)
    by (vm_compute; reflexivity).
  rewrite forallb_forall in H.
  specialize (H (N.to_nat i) ltac:(apply in_seq; lia)).
  cbv zeta in H. rewrite Nnat.N2Nat.id in H.
  apply andb_prop in H as [H1 H2]. apply N.eqb_eq in H1.
  split; [exact H1|]. apply negb_true_iff, Ascii.eqb_neq in H2. exact H2.
Qed.

Lemma land_63 n : N.land n 63 = (n mod 64)%N.
Proof. change 63%N with (N.ones 6). rewrite N.land_ones. reflexivity. Qed.

Lemma b64_char_land n : b64_char n = b64_char (N.land n 63).
Proof. unfold b64_char. rewrite <- N.land_assoc, N.land_diag. reflexivity. Qed.

Lemma b64_char_digit n :
  string_index (b64_char n) b64_alphabet = (n mod 64)%N /\ b64_char n <> "="%char.
Proof.
  rewrite b64_char_land, <- land_63. apply b64_char_table.
  rewrite land_63. apply N.mod_lt. discriminate.
Qed.

Lemma b64_char_not_pad n : b64_char n <> "="%char.
Proof. apply b64_char_digit. Qed.

Lemma b64_char_shiftr_eq n m s :
  b64_char (N.shiftr n s) = b64_char (N.shiftr m s) -> ((n / 2 ^ s) mod 64 = (m / 2 ^ s) mod 64)%N.
Proof.
  intros H. apply (f_equal (fun c => string_index c b64_alphabet)) in H.
  rewrite (proj1 (b64_char_digit _)), (proj1 (b64_char_digit _)), !N.shiftr_div_pow2 in H.
  exact H.
Qed.

Lemma lor_shiftl x y k : (y < 2 ^ k)%N -> N.lor (N.shiftl x k) y = (x * 2 ^ k + y)%N.
Proof.
  intros Hy. rewrite N.shiftl_mul_pow2.
  assert (H0 : N.land (x * 2 ^ k) y = 0%N).
  { apply N.bits_inj_0. intros i. rewrite N.land_spec.
    destruct (N.lt_ge_cases i k) as [Hi|Hi].
    - rewrite <- N.shiftl_mul_pow2, N.shiftl_spec_low by exact Hi. reflexivity.
    - rewrite <- (N.mod_small y (2 ^ k) Hy), N.mod_pow2_bits_high by exact Hi.
      apply andb_false_r. }
  rewrite <- (N.lxor_lor _ _ H0), (N.add_nocarry_lxor _ _ H0). reflexivity.
Qed.

Lemma b64_char_eq n m : b64_char n = b64_char m -> (n mod 64 = m mod 64)%N.
Proof.
  intros H. apply (f_equal (fun c => string_index c b64_alphabet)) in H.
  rewrite (proj1 (b64_char_digit n)), (proj1 (b64_char_digit m)) in H. exact H.
Qed.

Lemma byte_to_N_inj a b : Byte.to_N a = Byte.to_N b -> a = b.
Proof.
  intros H. pose proof (Byte.of_to_N a) as Ha. pose proof (Byte.of_to_N b) as Hb.
  rewrite H in Ha. congruence.
Qed.

Lemma block3_value a b c :
  N.lor (N.shiftl (Byte.to_N a) 16) (N.lor (N.shiftl (Byte.to_N b) 8) (Byte.to_N c))
  = (Byte.to_N a * 65536 + Byte.to_N b * 256 + Byte.to_N c)%N.
Proof.
  pose proof (Byte.to_N_bounded a). pose proof (Byte.to_N_bounded b).
  pose proof (Byte.to_N_bounded c).
  rewrite (lor_shiftl (Byte.to_N b) (Byte.to_N c) 8) by (change (2 ^ 8)%N with 256%N; lia).
  rewrite lor_shiftl by (change (2 ^ 8)%N with 256%N; change (2 ^ 16)%N with 65536%N; lia).
  change (2 ^ 8)%N with 256%N; change (2 ^ 16)%N with 65536%N. lia.
Qed.

Lemma block2_value a b :
  N.lor (N.shiftl (Byte.to_N a) 16) (N.shiftl (Byte.to_N b) 8)
  = (Byte.to_N a * 65536 + Byte.to_N b * 256)%N.
Proof.
  pose proof (Byte.to_N_bounded b).
  rewrite lor_shiftl; rewrite ?N.shiftl_mul_pow2;
    change (2 ^ 8)%N with 256%N; change (2 ^ 16)%N with 65536%N; lia.
Qed.

Lemma block1_value a : N.shiftl (Byte.to_N a) 16 = (Byte.to_N a * 65536)%N.
Proof. rewrite N.shiftl_mul_pow2. reflexivity. Qed.

Lemma b64_quad_eq n m :
  (n < 16777216)%N -> (m < 16777216)%N ->
  ((n / 2 ^ 18) mod 64 = (m / 2 ^ 18) mod 64)%N ->
  ((n / 2 ^ 12) mod 64 = (m / 2 ^ 12) mod 64)%N ->
  ((n / 2 ^ 6) mod 64 = (m / 2 ^ 6) mod 64)%N ->
  (n mod 64 = m mod 64)%N -> n = m.
Proof.
  assert (D3 : forall x, (x / 2 ^ 18 = x / 64 / 64 / 64)%N)
    by (intros x; rewrite !N.Div0.div_div; reflexivity).
  assert (D2 : forall x, (x / 2 ^ 12 = x / 64 / 64)%N)
    by (intros x; rewrite !N.Div0.div_div; reflexivity).
  intros Hn Hm E3 E2 E1 E0.
  rewrite !D3 in E3. rewrite !D2 in E2. change (2 ^ 6)%N with 64%N in E1.
  pose proof (N.div_mod n 64 ltac:(discriminate)).
  pose proof (N.div_mod m 64 ltac:(discriminate)).
  pose proof (N.div_mod (n / 64) 64 ltac:(discriminate)).
  pose proof (N.div_mod (m / 64) 64 ltac:(discriminate)).
  pose proof (N.div_mod (n / 64 / 64) 64 ltac:(discriminate)).
  pose proof (N.div_mod (m / 64 / 64) 64 ltac:(discriminate)).
  pose proof (N.div_mod (n / 64 / 64 / 64) 64 ltac:(discriminate)).
  pose proof (N.div_mod (m / 64 / 64 / 64) 64 ltac:(discriminate)).
  lia.
Qed.

Lemma block1_digit1 x : ((x * 65536 / 2 ^ 6) mod 64 = 0)%N.
Proof.
  change (2 ^ 6)%N with 64%N. replace (x * 65536)%N with (x * 1024 * 64)%N by lia.
  rewrite N.div_mul by discriminate. replace (x * 1024)%N with (x * 16 * 64)%N by lia.
  apply N.Div0.mod_mul.
Qed.

Lemma block1_digit0 x : ((x * 65536) mod 64 = 0)%N.
Proof. replace (x * 65536)%N with (x * 1024 * 64)%N by lia. apply N.Div0.mod_mul. Qed.

Lemma block2_digit0 x y : ((x * 65536 + y * 256) mod 64 = 0)%N.
Proof.
  replace (x * 65536 + y * 256)%N with ((x * 1024 + y * 4) * 64)%N by lia.
  apply N.Div0.mod_mul.
Qed.

Lemma String_inj c s c' s' : String c s = String c' s' -> c = c' /\ s = s'.
Proof. intros H. injection H. auto. Qed.

Ltac b64_pad_contra :=
  match goal with
  | H : b64_char _ = "="%char |- _ => exfalso; exact (b64_char_not_pad _ H)
  | H : "="%char = b64_char _ |- _ => exfalso; exact (b64_char_not_pad _ (eq_sym H))
  end.

Ltac b64_digits :=
  repeat match goal with
         | H : b64_char (N.shiftr _ _) = b64_char (N.shiftr _ _) |- _ =>
             apply b64_char_shiftr_eq in H
         end;
  repeat match goal with
         | H : b64_char _ = b64_char _ |- _ => apply b64_char_eq in H
         end.

Lemma b64encode_inj bs bs' : b64encode bs = b64encode bs' -> bs = bs'.
Proof.
  revert bs'.
  induction bs as [| a | a b | a b c r IH] using list3_ind;
    intros bs' H; destruct bs' as [| a' [| b' [| c' r']]]; cbn [b64encode] in H;
    repeat match goal with
           | H : String _ _ = String _ _ |- _ => apply String_inj in H; destruct H as [? H]
           end;
    try discriminate H; try b64_pad_contra; b64_digits.
  - reflexivity.
  - rewrite !block1_value in *.
    pose proof (Byte.to_N_bounded a). pose proof (Byte.to_N_bounded a').
    assert (Hn : (Byte.to_N a * 65536 = Byte.to_N a' * 65536)%N)
      by (apply b64_quad_eq; try assumption; try lia;
          rewrite ?block1_digit1, ?block1_digit0; reflexivity).
    rewrite (byte_to_N_inj a a') by lia. reflexivity.
  - rewrite !block2_value in *.
    pose proof (Byte.to_N_bounded a). pose proof (Byte.to_N_bounded a').
    pose proof (Byte.to_N_bounded b). pose proof (Byte.to_N_bounded b').
    assert (Hn : (Byte.to_N a * 65536 + Byte.to_N b * 256
                  = Byte.to_N a' * 65536 + Byte.to_N b' * 256)%N)
      by (apply b64_quad_eq; try assumption; try lia; rewrite !block2_digit0; reflexivity).
    rewrite (byte_to_N_inj a a'), (byte_to_N_inj b b') by lia. reflexivity.
  - rewrite !block3_value in *.
    pose proof (Byte.to_N_bounded a). pose proof (Byte.to_N_bounded a').
    pose proof (Byte.to_N_bounded b). pose proof (Byte.to_N_bounded b').
    pose proof (Byte.to_N_bounded c). pose proof (Byte.to_N_bounded c').
    assert (Hn : (Byte.to_N a * 65536 + Byte.to_N b * 256 + Byte.to_N c
                  = Byte.to_N a' * 65536 + Byte.to_N b' * 256 + Byte.to_N c')%N)
      by (apply b64_quad_eq; try assumption; lia).
    rewrite (byte_to_N_inj a a'), (byte_to_N_inj b b'), (byte_to_N_inj c c') by lia.
    match goal with H : b64encode r = b64encode r' |- _ => rewrite (IH r' H) end.
    reflexivity.
Qed.

Lemma b64_char_in_alphabet n : exists j, String.get j b64_alphabet = Some (b64_char n).
Proof.
  pose proof (b64_char_not_pad n) as Hn. unfold b64_char in *.
  destruct (String.get (N.to_nat (N.land n 63)) b64_alphabet) as [c|] eqn:E.
  - exists (N.to_nat (N.land n 63)). exact E.
  - contradiction.
Qed.

Lemma some_eq {A} (x y : A) : Some x = Some y -> x = y.
Proof. intros H. injection H. auto. Qed.

(** X15: the base64 text that [import_project] sends for a file of [n]
    bytes has [4 * ceil(n / 3)] characters. *)
Theorem b64encode_length bs : String.length (b64encode bs) = 4 * ((length bs + 2) / 3).
Proof.
  induction bs as [| a | a b | a b c r IH] using list3_ind; try reflexivity.
  cbn [b64encode String.length length]. rewrite IH.
  replace (S (S (S (length r))) + 2) with (length r + 2 + 1 * 3) by lia.
  rewrite Nat.div_add by discriminate. lia.
Qed.

Ltac b64_letter := left; apply b64_char_in_alphabet.
Ltac b64_padding := right; split; [reflexivity | cbn [String.length]; lia].

(** X16: every character of that base64 text is a character of the base64
    alphabet, or the padding ['='], and a ['='] only ever appears among
    the last two characters. *)
Theorem b64encode_alphabet bs i c :
  String.get i (b64encode bs) = Some c ->
  (exists j, String.get j b64_alphabet = Some c) \/
  (c = "="%char /\ String.length (b64encode bs) <= i + 2).
Proof.
  revert i. induction bs as [| a | a b | a b c' r IH] using list3_ind; intros i H;
    cbn [b64encode] in *.
  - discriminate H.
  - destruct i as [|[|[|[|i]]]]; cbn [String.get] in H; try discriminate H; apply some_eq in H;
      subst c; [b64_letter | b64_letter | b64_padding | b64_padding].
  - destruct i as [|[|[|[|i]]]]; cbn [String.get] in H; try discriminate H; apply some_eq in H;
      subst c; [b64_letter | b64_letter | b64_letter | b64_padding].
  - destruct i as [|[|[|[|i]]]]; cbn [String.get] in H;
      try (apply some_eq in H; subst c; b64_letter).
    destruct (IH i H) as [Hl | [Hc Hlen]]; [left; exact Hl | right].
    split; [exact Hc | cbn [String.length]; lia].
Qed.

Lemma b64encode_alphabet_witness :
  String.get 0 (b64encode (list_byte_of_string "file content")) = Some "Z"%char /\
  ((exists j, String.get j b64_alphabet = Some "Z"%char) \/
   ("Z"%char = "="%char /\
    String.length (b64encode (list_byte_of_string "file content")) <= 0 + 2)).
Proof.
  split; [reflexivity|].
  apply (b64encode_alphabet (list_byte_of_string "file content") 0 "Z"%char).
  reflexivity.
Defined.

Lemma import_project_sent server fs self project_id language_id file_path bs w :
  fs file_path = Some bs ->
  w_sent (snd (import_project server fs self project_id language_id file_path w))
  = (w_sent w ++ [mk_request "POST" (api_base_url ++ "projects/" ++ project_id ++ "/import") []
                    (request_headers self)
                    (Some (JObj [("language_id", JStr language_id);
                                 ("file", JStr (b64encode bs))]))])%list.
Proof.
  intros H. unfold import_project, bind at 1, read_file. rewrite H.
  unfold _post_request. apply make_request_sent_not_get. discriminate.
Qed.

(** X17: [import_project] sends different payloads for files with
    different contents: the base64 text of the file determines its bytes. *)
Theorem import_project_distinguishes_files server fs self project_id language_id
        path1 path2 bytes1 bytes2 w :
  fs path1 = Some bytes1 -> fs path2 = Some bytes2 -> bytes1 <> bytes2 ->
  w_sent (snd (import_project server fs self project_id language_id path1 w))
  <> w_sent (snd (import_project server fs self project_id language_id path2 w)).
Proof.
  intros H1 H2 Hne Heq.
  rewrite (import_project_sent server fs self project_id language_id path1 bytes1 w H1),
          (import_project_sent server fs self project_id language_id path2 bytes2 w H2) in Heq.
  apply app_inv_head in Heq.
  apply (f_equal (fun l => match l with
                           | [rq] => match rq_body rq with
                                     | Some (JObj [_; (_, JStr s)]) => s
                                     | _ => ""
                                     end
                           | _ => ""
                           end)) in Heq.
  cbv beta iota in Heq.
  exact (Hne (b64encode_inj bytes1 bytes2 Heq)).
Qed.

(** A file system holding two one-byte files. *)
Definition two_files_fs (path : string) : option (list byte) :=
  if String.eqb path "a" then Some (list_byte_of_string "a") else Some (list_byte_of_string "b").

Lemma import_project_distinguishes_files_witness :
  w_sent (snd (import_project (status_server 200 None) two_files_fs witness_client "p" "en" "a"
                 (mk_world [] [])))
  <> w_sent (snd (import_project (status_server 200 None) two_files_fs witness_client "p" "en" "b"
                    (mk_world [] []))).
Proof.
  apply (import_project_distinguishes_files (status_server 200 None) two_files_fs witness_client
           "p" "en" "a" "b" (list_byte_of_string "a") (list_byte_of_string "b") (mk_world [] []));
    [reflexivity | reflexivity | discriminate].
Defined.

(** ** What [is_file_download] changes *)

(** X18: [is_file_download] only changes how an accepted answer is handed
    back: the request sent is the same either way, and a call that raises
    with the flag set raises the same exception, in the same state,
    without it. *)
Theorem make_request_file_download_flag server self url method params w :
  w_sent (snd (_make_request server self url method params true w))
    = w_sent (snd (_make_request server self url method params false w)) /\
  (forall e, fst (_make_request server self url method params true w) = Raise e ->
   _make_request server self url method params true w
   = _make_request server self url method params false w).
Proof.
  rewrite !make_request_run.
  destruct (build_request self url method params) as [rq|e0]; [|split; reflexivity].
  destruct (server rq) as [r|reason]; [|split; reflexivity].
  destruct (negb (rs_status r =? 200)%Z && negb (rs_status r =? 400)%Z); [split; reflexivity|].
  destruct (response_json r) as [j|e1]; cbn [fst]; split; try reflexivity;
    intros e H; discriminate H.
Qed.

Lemma make_request_file_download_flag_witness :
  fst (_make_request (status_server 500 None) witness_client "projects/p/exports/e" "GET" None true
         (mk_world [] [])) = Raise (StatusError 500) /\
  _make_request (status_server 500 None) witness_client "projects/p/exports/e" "GET" None true
    (mk_world [] [])
  = _make_request (status_server 500 None) witness_client "projects/p/exports/e" "GET" None false
      (mk_world [] []).
Proof.
  split; [reflexivity|].
  apply (proj2 (make_request_file_download_flag (status_server 500 None) witness_client
                  "projects/p/exports/e" "GET" None (mk_world [] [])) (StatusError 500)).
  reflexivity.
Defined.

(** X19: [create_translation] sends exactly one POST to
    [projects/{project_id}/translations] whose body carries the language
    (a string, or [null] when not given), the key id as it was passed, and
    the content nested under ["translation"]. *)
Theorem create_translation_request server self project_id key_id content language_id w :
  w_sent (snd (create_translation server self project_id key_id content language_id w))
  = (w_sent w ++
     [mk_request "POST" (api_base_url ++ "projects/" ++ project_id ++ "/translations") []
        (request_headers self)
        (Some (JObj [("language_id", match language_id with Some l => JStr l | None => JNull end);
                     ("key_id", key_id);
                     ("translation", JObj [("content", JStr content)])]))])%list.
Proof. unfold create_translation, _post_request. apply make_request_sent_not_get. discriminate. Qed.
